(** * Binance trading bot: threshold policy loop

    A shallow embedding of [src/bot.py] (functional entry point) and
    [src/trading_bot.py] (class [BasicBot]), and the properties of the
    position/threshold policy they implement.

    Conventions of the embedding
    - A Python [float] is an IEEE binary64 value: Rocq's primitive [float].
      [a < b] is [PrimFloat.ltb a b], [a > b] is [PrimFloat.ltb b a],
      [a == b] is [PrimFloat.eqb a b].
    - A Python [str] is a Rocq [string]; a character stands for its code
      point (below 256).
    - A [dict] with string keys is a [gmap string _].
    - Everything the process does to the outside (log records, printed
      lines, exchange requests, sleeps, prompts) is an [event] of a trace;
      everything the outside answers is read from a [world].
    - An f-string is kept as its template and the values it interpolates
      ([fstring]); number formatting is not rendered. *)

From Stdlib Require Import Floats ZArith Bool List Ascii String.
From stdpp Require Import gmap strings list.
Import ListNotations.

Set Warnings "-inexact-float".

Local Open Scope string_scope.
Local Open Scope list_scope.

(** ** Python values and effects *)

(** Exceptions, by the classes the handlers of the source tell apart:
    [except Exception] catches neither [KeyboardInterrupt] nor [SystemExit]
    (what argparse raises on a bad command line). *)
Inductive exn : Type :=
| KeyboardInterrupt
| SystemExit
| Exception (name : string).

Inductive result (A : Type) : Type :=
| Ok (a : A)
| Raise (e : exn).
Arguments Ok {A} a.
Arguments Raise {A} e.

(** The builtin [float(s)] on a string: a value or a [ValueError]. It is a
    fixed function of the interpreter, shared by all definitions below. *)
Class Builtins : Type := { py_float : string -> result float }.

Inductive level : Type := INFO | WARNING | ERROR | CRITICAL.

(** The reply of the exchange to an accepted order (a dict the code only
    prints). *)
Record order : Type := { orderId : Z }.

(** Values interpolated into f-strings. *)
Inductive fstring : Type :=
| F (template : string) (args : list farg)
with farg : Type :=
| AStr (s : string)
| AFloat (x : float)
| AExn (e : exn)
| AOrder (o : order)
| ABalance (b : gmap string float)
| AMsg (m : fstring).

(** Requests sent to the exchange client. *)
Inductive request : Type :=
| GetAccount
| GetSymbolTicker (symbol : string)
| OrderMarketBuy (symbol : string) (quantity : float)
| OrderMarketSell (symbol : string) (quantity : float)
| CreateOrder (symbol : string) (quantity : float) (price stopPrice : float)
| CreateOcoOrder (symbol : string) (quantity : float)
                 (price stopPrice stopLimitPrice : float).

Inductive event : Type :=
| Log (lv : level) (m : fstring)
| Print (m : fstring)
| Call (r : request)
| Sleep (secs : Z)
| Input (prompt : string).

(** One entry of [client.get_account()['balances']]. *)
Record balance : Type := { asset : string; free : string }.

(** What the outside answers during one round of the loop (or during
    start-up): each field is the outcome of the corresponding call. *)
Record world : Type := {
  account : result (list balance);  (* client.get_account()['balances'] *)
  ticker : result string;           (* client.get_symbol_ticker(...)['price'] *)
  order_reply : result order;       (* the order request of this round *)
  nap : result unit;                (* time.sleep(...) *)
  typed : list (result string)      (* successive input(...) lines *)
}.

(** A whole run: the answers at start-up and those of each round. *)
Record session : Type := { start : world; rounds : list world }.

(** ** The program monad

    A computation reads an environment [E], may change the position flag
    ([in_position], the only mutable state of either program), appends
    events, and returns or raises. The flag and the events survive a raise,
    as in Python. *)
Definition outcome (A : Type) : Type := (list event * bool * result A)%type.
Definition M (E A : Type) : Type := E -> bool -> outcome A.

Definition trace {A} (o : outcome A) : list event := fst (fst o).
Definition flag {A} (o : outcome A) : bool := snd (fst o).
Definition value {A} (o : outcome A) : result A := snd o.

Definition ret {E A} (a : A) : M E A := fun _ pos => ([], pos, Ok a).

Definition bind {E A B} (m : M E A) (k : A -> M E B) : M E B :=
  fun env pos =>
    match m env pos with
    | (t1, pos1, Ok a) =>
        let '(t2, pos2, r) := k a env pos1 in (t1 ++ t2, pos2, r)
    | (t1, pos1, Raise e) => (t1, pos1, Raise e)
    end.

Declare Scope prog_scope.
Delimit Scope prog_scope with prog.
Bind Scope prog_scope with M.
Notation "x <- m ;; k" := (bind m (fun x => k))
  (at level 20, m at level 99, k at level 200, only parsing) : prog_scope.
Notation "m ;; k" := (bind m (fun _ => k))
  (at level 100, k at level 200, only parsing, right associativity) : prog_scope.
Local Open Scope prog_scope.

Definition lift {E A} (r : result A) : M E A := fun _ pos => ([], pos, r).
Definition emit {E} (e : event) : M E unit := fun _ pos => ([e], pos, Ok tt).
Definition logging {E} (lv : level) (m : fstring) : M E unit := emit (Log lv m).
Definition get_pos {E} : M E bool := fun _ pos => ([], pos, Ok pos).
Definition set_pos {E} (b : bool) : M E unit := fun _ _ => ([], b, Ok tt).

(** A call to the exchange client: the request is recorded, the answer is
    the world's. *)
Definition call {A} (r : request) (answer : world -> result A) : M world A :=
  fun w pos => ([Call r], pos, answer w).

(** [time.sleep(secs)]. *)
Definition sleep (secs : Z) : M world unit :=
  fun w pos => ([Sleep secs], pos, nap w).

(** The [k]-th [input(prompt)] of the round; at end of input, [EOFError]. *)
Definition input (k : nat) (prompt : string) : M world string :=
  fun w pos =>
    ([Input prompt], pos,
     match nth_error (typed w) k with
     | Some r => r
     | None => Raise (Exception "EOFError")
     end).

(** Run [m] in a part of the environment. *)
Definition within {E E' A} (f : E' -> E) (m : M E A) : M E' A :=
  fun env pos => m (f env) pos.

(** [try: m  except ...: h]. The handler table [h] says which exceptions are
    caught and what runs then. *)
Definition try_ {E A} (m : M E A) (h : exn -> option (M E A)) : M E A :=
  fun env pos =>
    match m env pos with
    | (t1, pos1, Raise e) =>
        match h e with
        | Some k => let '(t2, pos2, r) := k env pos1 in (t1 ++ t2, pos2, r)
        | None => (t1, pos1, Raise e)
        end
    | o => o
    end.

(** [except Exception as e: k e]. *)
Definition except_Exception {E A} (k : exn -> M E A) : exn -> option (M E A) :=
  fun e => match e with
           | Exception _ => Some (k e)
           | KeyboardInterrupt | SystemExit => None
           end.

(** [except KeyboardInterrupt: k1  except Exception as e: k2 e]. *)
Definition except_both {E A} (k1 : M E A) (k2 : exn -> M E A)
  : exn -> option (M E A) :=
  fun e => match e with
           | KeyboardInterrupt => Some k1
           | Exception _ => Some (k2 e)
           | SystemExit => None
           end.

(** [while True: body], driven by the answers of finitely many rounds.
    [Running] means the rounds given are used up and the loop is still
    going; [Finished] that the body executed [break]. *)
Inductive flow : Type := Continue | Break.
Inductive ending : Type := Finished | Running.

Fixpoint while_true (body : M world flow) (ws : list world) (pos : bool)
  : outcome ending :=
  match ws with
  | [] => ([], pos, Ok Running)
  | w :: rest =>
      match body w pos with
      | (t, pos1, Ok Continue) =>
          let '(t', pos2, r) := while_true body rest pos1 in (t ++ t', pos2, r)
      | (t, pos1, Ok Break) => (t, pos1, Ok Finished)
      | (t, pos1, Raise e) => (t, pos1, Raise e)
      end
  end.

(** ** Strings *)

(** [str.isspace] on one character. *)
Definition is_space (a : ascii) : bool :=
  let n := nat_of_ascii a in
  ((9 <=? n)%nat && (n <=? 13)%nat) || ((28 <=? n)%nat && (n <=? 32)%nat)
  || (n =? 133)%nat || (n =? 160)%nat.

Fixpoint lstrip (s : string) : string :=
  match s with
  | EmptyString => EmptyString
  | String a s' => if is_space a then lstrip s' else s
  end.

Fixpoint rstrip (s : string) : string :=
  match s with
  | EmptyString => EmptyString
  | String a s' =>
      match rstrip s' with
      | EmptyString => if is_space a then EmptyString else String a EmptyString
      | r => String a r
      end
  end.

(** [s.strip()]. *)
Definition strip (s : string) : string := rstrip (lstrip s).

(** [s.lower()], on the letters A-Z. *)
Definition lower_char (a : ascii) : ascii :=
  let n := nat_of_ascii a in
  if ((65 <=? n)%nat && (n <=? 90)%nat) then ascii_of_nat (n + 32) else a.

Fixpoint lower (s : string) : string :=
  match s with
  | EmptyString => EmptyString
  | String a s' => String (lower_char a) (lower s')
  end.

(** [s.startswith('#')]. *)
Definition startswith_hash (s : string) : bool :=
  match s with
  | String a _ => Ascii.eqb a "#"%char
  | EmptyString => false
  end.

(** [s.split('=', 1)] when it has two parts; [None] when [s] has no ['=']
    (the unpacking [key, value = ...] then raises [ValueError]). *)
Fixpoint split_eq (s : string) : option (string * string) :=
  match s with
  | EmptyString => None
  | String a s' =>
      if Ascii.eqb a "="%char then Some (EmptyString, s')
      else match split_eq s' with
           | Some (k, v) => Some (String a k, v)
           | None => None
           end
  end.

(** The [.env] file as [open('.env')] finds it. *)
Inductive dotenv : Type :=
| FileNotFound
| Lines (ls : list string).

(** The loop [for line in f: ...] shared by [load_config] and [load_env]. *)
Fixpoint read_lines (ls : list string) (config : gmap string string)
  : result (gmap string string) :=
  match ls with
  | [] => Ok config
  | line :: rest =>
      if negb (String.eqb (strip line) "") && negb (startswith_hash line) then
        match split_eq (strip line) with
        | Some (key, val) => read_lines rest (<[key := val]> config)
        | None => Raise (Exception "ValueError")
        end
      else read_lines rest config
  end.

(** [config[key]]. *)
Definition item {E} (config : gmap string string) (key : string) : M E string :=
  lift (match config !! key with
        | Some v => Ok v
        | None => Raise (Exception "KeyError")
        end).

(** [config.get(key, default)]. *)
Definition get (config : gmap string string) (key default : string) : string :=
  match config !! key with
  | Some v => v
  | None => default
  end.

(** ** Data shared by the two programs *)

Inductive side : Type := BUY | SELL.

(** [Client(api_key, api_secret, testnet=...)]. *)
Record client : Type := {
  api_key : string;
  api_secret : string;
  testnet : bool
}.

(** The values the loop reads and never writes: the locals [symbol],
    [buy_price], [sell_price], [quantity] of [run_bot], the fields of the
    same names of [BasicBot]. *)
Record settings : Type := {
  symbol : string;
  buy_price : float;
  sell_price : float;
  quantity : float
}.

Definition side_name (is_buy : bool) : string := if is_buy then "BUY" else "SELL".
Definition yes_no (b : bool) : string := if b then "YES" else "NO".

Section Shared.
Context {B : Builtins}.

(** The dict comprehension of [get_account_balance] and [get_balance]:
    [{b['asset']: float(b['free']) for b in balances if float(b['free']) > 0}].
    A later entry of the same asset overwrites an earlier one; a [free]
    that is not a number raises. *)
Fixpoint free_amounts (balances : list balance) (acc : gmap string float)
  : result (gmap string float) :=
  match balances with
  | [] => Ok acc
  | b :: rest =>
      match py_float (free b) with
      | Raise e => Raise e
      | Ok x =>
          if (0 <? x)%float then free_amounts rest (<[asset b := x]> acc)
          else free_amounts rest acc
      end
  end.

(** [float(config[key])]. *)
Definition float_item {E} (config : gmap string string) (key : string)
  : M E float :=
  v <- item config key ;; lift (py_float v).
End Shared.

(** ** [src/bot.py] *)
Module Bot.
Section Program.
Context {B : Builtins}.

Definition defaults : gmap string string :=
  <["BINANCE_API_KEY" := "your_testnet_key"]>
  (<["BINANCE_API_SECRET" := "your_testnet_secret"]>
  (<["USE_TESTNET" := "True"]>
  (<["SYMBOL" := "BTCUSDT"]>
  (<["BUY_THRESHOLD" := "60000"]>
  (<["SELL_THRESHOLD" := "68000"]>
  (<["TRADE_QUANTITY" := "0.001"]> ∅)))))).

Definition load_config {E} (f : dotenv) : M E (gmap string string) :=
  match f with
  | Lines ls => lift (read_lines ls ∅)
  | FileNotFound =>
      emit (Print (F "Warning: No .env file found. Using default testnet config." [])) ;;
      ret defaults
  end.

(** The module-level [client = Client(...)]. *)
Definition make_client {E} (config : gmap string string) : M E client :=
  key <- item config "BINANCE_API_KEY" ;;
  secret <- item config "BINANCE_API_SECRET" ;;
  ret {| api_key := key;
         api_secret := secret;
         testnet := String.eqb (lower (get config "USE_TESTNET" "True")) "true" |}.

Definition get_account_balance : M world (gmap string float) :=
  balances <- call GetAccount account ;;
  lift (free_amounts balances ∅).

Definition send_alert {E} (message : fstring) : M E unit :=
  logging WARNING (F "ALERT: {}" [AMsg message]).

Definition execute_safe_trade (symbol : string) (quantity : float) (is_buy : bool)
  : M world bool :=
  try_
    (order <- call (if is_buy then OrderMarketBuy symbol quantity
                    else OrderMarketSell symbol quantity) order_reply ;;
     logging INFO (F "{} order executed: {}" [AStr (side_name is_buy); AOrder order]) ;;
     ret true)
    (except_Exception (fun e =>
       logging ERROR (F "Trade failed: {}" [AExn e]) ;;
       send_alert (F "TRADE FAILED: {} {} {}"
                     [AStr symbol; AFloat quantity; AStr (side_name is_buy)]) ;;
       ret false)).

Definition check_interval : Z := 3.

(** The body of [while True:] in [run_bot]. *)
Definition iteration (c : settings) : M world unit :=
  raw <- call (GetSymbolTicker (symbol c)) ticker ;;
  price <- lift (py_float raw) ;;
  in_position <- get_pos ;;
  logging INFO (F "{} Price: ${:,.2f} | Position: {}"
                  [AStr (symbol c); AFloat price; AStr (yes_no in_position)]) ;;
  (if negb in_position && (price <? buy_price c)%float then
     ok <- execute_safe_trade (symbol c) (quantity c) true ;;
     if ok : bool then
       set_pos true ;;
       send_alert (F "Bought {} {} at ${:,.2f}"
                     [AFloat (quantity c); AStr (symbol c); AFloat price])
     else ret tt
   else if in_position && (sell_price c <? price)%float then
     ok <- execute_safe_trade (symbol c) (quantity c) false ;;
     if ok : bool then
       set_pos false ;;
       send_alert (F "Sold {} {} at ${:,.2f}"
                     [AFloat (quantity c); AStr (symbol c); AFloat price])
     else ret tt
   else ret tt) ;;
  sleep check_interval.

(** Lines 87-90 of [run_bot]: the locals read from [config]. *)
Definition read_settings {E} (config : gmap string string) : M E settings :=
  symbol <- item config "SYMBOL" ;;
  buy_price <- float_item config "BUY_THRESHOLD" ;;
  sell_price <- float_item config "SELL_THRESHOLD" ;;
  quantity <- float_item config "TRADE_QUANTITY" ;;
  ret {| symbol := symbol; buy_price := buy_price;
         sell_price := sell_price; quantity := quantity |}.

(** Lines 93-118 of [run_bot]: [in_position = False], then the loop
    inside its [try]. *)
Definition trading_loop (c : settings) : M session ending :=
  set_pos false ;;
  try_
    (within rounds (while_true (iteration c ;; ret Continue)))
    (except_both
       (logging INFO (F "Bot stopped by user" []) ;; ret Finished)
       (fun e =>
          logging CRITICAL (F "Fatal error: {}" [AExn e]) ;;
          send_alert (F "BOT CRASHED: {}" [AExn e]) ;;
          ret Finished)).

Definition run_bot (config : gmap string string) (cl : client)
  : M session ending :=
  logging INFO (F "=== Starting Trading Bot ===" []) ;;
  logging INFO (F "Mode: {}" [AStr (if testnet cl then "TESTNET" else "LIVE")]) ;;
  balance <- within start get_account_balance ;;
  logging INFO (F "Balance: {}" [ABalance balance]) ;;
  c <- read_settings config ;;
  trading_loop c.

(** The module as a script: [config = load_config()], the client, then
    [run_bot()]. *)
Definition main (f : dotenv) : M session ending :=
  config <- load_config f ;;
  cl <- make_client config ;;
  run_bot config cl.
End Program.
End Bot.

(** ** [src/trading_bot.py] *)
Module TradingBot.

(** The command line: an option is [None] when it is not given; the two
    flags are [true] when present. *)
Record argv : Type := {
  opt_api_key : option string;
  opt_api_secret : option string;
  opt_symbol : option string;
  opt_buy : option string;
  opt_sell : option string;
  opt_qty : option string;
  opt_testnet : bool;
  opt_ui : bool
}.

(** The namespace [parser.parse_args()] returns. *)
Record args : Type := {
  arg_api_key : string;
  arg_api_secret : string;
  arg_symbol : string;
  arg_buy : float;
  arg_sell : float;
  arg_qty : float;
  arg_testnet : bool;
  arg_ui : bool
}.

Definition no_options : argv :=
  {| opt_api_key := None; opt_api_secret := None; opt_symbol := None;
     opt_buy := None; opt_sell := None; opt_qty := None;
     opt_testnet := false; opt_ui := false |}.

Section Program.
Context {B : Builtins}.

Definition load_env {E} (f : dotenv) : M E (gmap string string) :=
  match f with
  | Lines ls => lift (read_lines ls ∅)
  | FileNotFound =>
      logging WARNING (F ".env file not found. Proceeding with CLI/default config." []) ;;
      ret ∅
  end.

(** An option of [type=float]: the default when absent, else the
    conversion of what was typed; argparse exits on a bad number. *)
Definition float_option {E} (given : option string) (default : float) : M E float :=
  match given with
  | None => ret default
  | Some s => match py_float s with
              | Ok x => ret x
              | Raise _ => lift (Raise SystemExit)
              end
  end.

(** The [add_argument] calls, whose defaults are computed from [env]
    before the command line is read, then [parse_args()]. *)
Definition parse_args {E} (env : gmap string string) (cli : argv) : M E args :=
  let d_api_key := get env "BINANCE_API_KEY" "" in
  let d_api_secret := get env "BINANCE_API_SECRET" "" in
  let d_symbol := get env "SYMBOL" "BTCUSDT" in
  d_buy <- lift (py_float (get env "BUY_THRESHOLD" "60000")) ;;
  d_sell <- lift (py_float (get env "SELL_THRESHOLD" "68000")) ;;
  d_qty <- lift (py_float (get env "TRADE_QUANTITY" "0.001")) ;;
  let d_testnet := String.eqb (lower (get env "USE_TESTNET" "True")) "true" in
  buy <- float_option (opt_buy cli) d_buy ;;
  sell <- float_option (opt_sell cli) d_sell ;;
  qty <- float_option (opt_qty cli) d_qty ;;
  ret {| arg_api_key := default d_api_key (opt_api_key cli);
         arg_api_secret := default d_api_secret (opt_api_secret cli);
         arg_symbol := default d_symbol (opt_symbol cli);
         arg_buy := buy; arg_sell := sell; arg_qty := qty;
         arg_testnet := opt_testnet cli || d_testnet;
         arg_ui := opt_ui cli |}.

(** [BasicBot.__init__]: the client, the fields, [self.in_position = False]. *)
Definition BasicBot {E} (api_key api_secret symbol : string)
    (buy_price sell_price quantity : float) (testnet : bool)
  : M E (client * settings) :=
  set_pos false ;;
  ret ({| api_key := api_key; api_secret := api_secret; testnet := testnet |},
       {| symbol := symbol; buy_price := buy_price;
          sell_price := sell_price; quantity := quantity |}).

Definition get_balance : M world (gmap string float) :=
  try_
    (balances <- call GetAccount account ;;
     lift (free_amounts balances ∅))
    (except_Exception (fun e =>
       logging ERROR (F "Failed to fetch account balance: {}" [AExn e]) ;;
       ret ∅)).

Definition execute_trade (self : settings) (is_buy : bool) : M world bool :=
  try_
    (order <- (if is_buy
               then call (OrderMarketBuy (symbol self) (quantity self)) order_reply
               else call (OrderMarketSell (symbol self) (quantity self)) order_reply) ;;
     logging INFO (F "{} order executed: {}" [AStr (side_name is_buy); AOrder order]) ;;
     ret true)
    (except_Exception (fun e =>
       logging ERROR (F "Trade failed: {}" [AExn e]) ;;
       ret false)).

Definition place_stop_limit_sell (self : settings) (stop_price limit_price : float)
  : M world unit :=
  try_
    (order <- call (CreateOrder (symbol self) (quantity self) limit_price stop_price)
                   order_reply ;;
     logging INFO (F "Stop-Limit SELL order placed: {}" [AOrder order]))
    (except_Exception (fun e =>
       logging ERROR (F "Failed to place stop-limit sell order: {}" [AExn e]))).

Definition place_oco_order (self : settings)
    (take_profit_price stop_price stop_limit_price : float) : M world unit :=
  try_
    (order <- call (CreateOcoOrder (symbol self) (quantity self)
                      take_profit_price stop_price stop_limit_price) order_reply ;;
     logging INFO (F "OCO SELL order placed: {}" [AOrder order]))
    (except_Exception (fun e =>
       logging ERROR (F "Failed to place OCO order: {}" [AExn e]))).

(** [float(input(prompt))], the [k]-th prompt of the round. *)
Definition float_input (k : nat) (prompt : string) : M world float :=
  s <- input k prompt ;; lift (py_float s).

(** The interactive branch, up to its [continue] or [break]. *)
Definition dispatch (self : settings) : M world flow :=
  line <- input 0 "Enter 'b' to buy, 's' to sell, 'oco' for OCO, 'stop' for Stop-Limit, or 'q' to quit: " ;;
  let user_input := lower (strip line) in
  if String.eqb user_input "b" then
    execute_trade self true ;; ret Continue
  else if String.eqb user_input "s" then
    execute_trade self false ;; ret Continue
  else if String.eqb user_input "oco" then
    tp <- float_input 1 "Take Profit Price: " ;;
    sp <- float_input 2 "Stop Price: " ;;
    slp <- float_input 3 "Stop Limit Price: " ;;
    place_oco_order self tp sp slp ;; ret Continue
  else if String.eqb user_input "stop" then
    sp <- float_input 1 "Stop Price: " ;;
    lp <- float_input 2 "Limit Price: " ;;
    place_stop_limit_sell self sp lp ;; ret Continue
  else if String.eqb user_input "q" then ret Break
  else ret Continue.

(** The body of [while True:] in [BasicBot.run], with its own [try]. *)
Definition body (self : settings) (ui_mode : bool) : M world flow :=
  try_
    (raw <- call (GetSymbolTicker (symbol self)) ticker ;;
     price <- lift (py_float raw) ;;
     in_position <- get_pos ;;
     logging INFO (F "{} Price: ${:.2f} | Position: {}"
                     [AStr (symbol self); AFloat price; AStr (yes_no in_position)]) ;;
     if ui_mode then dispatch self
     else
       (if negb in_position && (price <? buy_price self)%float then
          ok <- execute_trade self true ;;
          if ok : bool then
            set_pos true ;;
            logging INFO (F "BOUGHT {} {} at ${:.2f}"
                            [AFloat (quantity self); AStr (symbol self); AFloat price])
          else ret tt
        else if in_position && (sell_price self <? price)%float then
          ok <- execute_trade self false ;;
          if ok : bool then
            set_pos false ;;
            logging INFO (F "SOLD {} {} at ${:.2f}"
                            [AFloat (quantity self); AStr (symbol self); AFloat price])
          else ret tt
        else ret tt) ;;
       sleep 3 ;;
       ret Continue)
    (except_both
       (logging INFO (F "Bot stopped by user." []) ;; ret Break)
       (fun e => logging ERROR (F "Error in main loop: {}" [AExn e]) ;; ret Continue)).

(** The two nested [try] blocks of [run] and the loop between them. *)
Definition trading_loop (self : settings) (ui_mode : bool) : M session ending :=
  try_
    (within rounds (while_true (body self ui_mode)))
    (except_Exception (fun e =>
       logging CRITICAL (F "Fatal bot crash: {}" [AExn e]) ;; ret Finished)).

Definition run (self : settings) (ui_mode : bool) : M session ending :=
  logging INFO (F "=== Trading Bot Started ===" []) ;;
  logging INFO (F "Symbol: {}, Buy below: {}, Sell above: {}"
                  [AStr (symbol self); AFloat (buy_price self); AFloat (sell_price self)]) ;;
  balance <- within start get_balance ;;
  logging INFO (F "Balance: {}" [ABalance balance]) ;;
  trading_loop self ui_mode.

(** The [__main__] block. *)
Definition main (f : dotenv) (cli : argv) : M session ending :=
  env <- load_env f ;;
  a <- parse_args env cli ;;
  bot <- BasicBot (arg_api_key a) (arg_api_secret a) (arg_symbol a)
                  (arg_buy a) (arg_sell a) (arg_qty a) (arg_testnet a) ;;
  run (snd bot) (arg_ui a).
End Program.
End TradingBot.

(** ** Reading a trace *)

(** The side of a market order request. *)
Definition order_side (e : event) : option side :=
  match e with
  | Call (OrderMarketBuy _ _) => Some BUY
  | Call (OrderMarketSell _ _) => Some SELL
  | _ => None
  end.

(** The market orders requested, in order. *)
Fixpoint orders (t : list event) : list side :=
  match t with
  | [] => []
  | e :: t' => match order_side e with
               | Some s => s :: orders t'
               | None => orders t'
               end
  end.

(** Any request that submits an order (market, stop-limit, OCO). *)
Definition is_submission (e : event) : bool :=
  match e with
  | Call (OrderMarketBuy _ _) | Call (OrderMarketSell _ _)
  | Call (CreateOrder _ _ _ _) | Call (CreateOcoOrder _ _ _ _ _) => true
  | _ => false
  end.

Definition submissions (t : list event) : nat :=
  length (List.filter is_submission t).

Definition level_eqb (a b : level) : bool :=
  match a, b with
  | INFO, INFO | WARNING, WARNING | ERROR, ERROR | CRITICAL, CRITICAL => true
  | _, _ => false
  end.

Definition has_level (lv : level) (e : event) : bool :=
  match e with
  | Log lv' _ => level_eqb lv lv'
  | _ => false
  end.

(** The number of log records of level [lv]. *)
Definition records (lv : level) (t : list event) : nat :=
  length (List.filter (has_level lv) t).

Definition is_ticker (e : event) : bool :=
  match e with
  | Call (GetSymbolTicker _) => true
  | _ => false
  end.

(** The number of price fetches, that is of rounds begun. *)
Definition fetches (t : list event) : nat :=
  length (List.filter is_ticker t).

(** What a round decided, read off the order it requested. *)
Inductive Decision : Type := NoAction | RequestBuy | RequestSell.

Definition decision (t : list event) : Decision :=
  match orders t with
  | [] => NoAction
  | BUY :: _ => RequestBuy
  | SELL :: _ => RequestSell
  end.

Definition succeeded {A} (r : result A) : bool :=
  match r with
  | Ok _ => true
  | Raise _ => false
  end.

(** ** The contract of the specification, for comparison with the code

    [evaluate] and [applyOutcome] follow the words of the specification
    (section 4.1); the programs have no such functions, their loop bodies
    are compared with them below. *)
Module Contract.
Definition evaluate (currentPrice : float) (in_position : bool) (c : settings)
  : Decision :=
  if negb in_position && (currentPrice <? buy_price c)%float then RequestBuy
  else if in_position && (sell_price c <? currentPrice)%float then RequestSell
  else NoAction.

Definition applyOutcome (d : Decision) (orderSucceeded : bool) (in_position : bool)
  : bool :=
  match d, orderSucceeded with
  | RequestBuy, true => true
  | RequestSell, true => false
  | _, _ => in_position
  end.
End Contract.

(** ** Sample inputs *)

(** The values of [float] on the strings the examples use. *)
Definition float_table : Builtins :=
  {| py_float := fun s =>
       if String.eqb s "60000" then Ok 60000%float
       else if String.eqb s "68000" then Ok 68000%float
       else if String.eqb s "0.001" then Ok 0.001%float
       else if String.eqb s "59999.99" then Ok 59999.99%float
       else if String.eqb s "68000.01" then Ok 68000.01%float
       else if String.eqb s "0.00000000" then Ok 0%float
       else if String.eqb s "1.50000000" then Ok 1.5%float
       else Raise (Exception "ValueError") |}.

Definition quiet (price : string) (reply : result order) : world :=
  {| account := Ok []; ticker := Ok price; order_reply := reply;
     nap := Ok tt; typed := [] |}.

Definition filled : result order := Ok {| orderId := 1 |}.
Definition rejected : result order := Raise (Exception "BinanceAPIException").

Definition offline : world :=
  {| account := Ok []; ticker := Raise (Exception "ConnectionError");
     order_reply := filled; nap := Ok tt; typed := [] |}.

Definition default_settings : settings :=
  {| symbol := "BTCUSDT"; buy_price := 60000; sell_price := 68000;
     quantity := 0.001 |}.

(** Thresholds the wrong way round: nothing in the source rejects them. *)
Definition crossed_settings : settings :=
  {| symbol := "BTCUSDT"; buy_price := 68000; sell_price := 60000;
     quantity := 0.001 |}.

(** A command line that gives at most a symbol and a buy threshold. *)
Definition options (sym buy : option string) : TradingBot.argv :=
  {| TradingBot.opt_api_key := None; TradingBot.opt_api_secret := None;
     TradingBot.opt_symbol := sym; TradingBot.opt_buy := buy;
     TradingBot.opt_sell := None; TradingBot.opt_qty := None;
     TradingBot.opt_testnet := false; TradingBot.opt_ui := false |}.

(** A round at the prompt: the price, then what the operator types. *)
Definition typing (price : string) (lines : list (result string)) : world :=
  {| account := Ok []; ticker := Ok price; order_reply := filled;
     nap := Ok tt; typed := lines |}.


Definition two_assets : list balance :=
  [ {| asset := "BTC"; free := "0.00000000" |};
    {| asset := "USDT"; free := "1.50000000" |} ].

(** Start-up answers: the account query times out, or lists [two_assets]. *)
Definition account_timeout : world :=
  {| account := Raise (Exception "Timeout"); ticker := Ok "60000";
     order_reply := filled; nap := Ok tt; typed := [] |}.

Definition account_listed : world :=
  {| account := Ok two_assets; ticker := Ok "60000";
     order_reply := filled; nap := Ok tt; typed := [] |}.

(** ** Reading strings, lines and sleeps *)

(** ['=' in s]. *)
Fixpoint contains_eq (s : string) : bool :=
  match s with
  | EmptyString => false
  | String a s' => Ascii.eqb a "="%char || contains_eq s'
  end.

(** The first, the last character of [s] is white space. *)
Definition head_space (s : string) : bool :=
  match s with
  | EmptyString => false
  | String a _ => is_space a
  end.

Fixpoint last_space (s : string) : bool :=
  match s with
  | EmptyString => false
  | String a EmptyString => is_space a
  | String _ s' => last_space s'
  end.

(** The test of [read_lines] on a line:
    [line.strip() and not line.startswith('#')]. *)
Definition is_entry (line : string) : bool :=
  negb (String.eqb (strip line) "") && negb (startswith_hash line).

(** A line that passes the test and has no ['=']. *)
Definition malformed (line : string) : bool :=
  is_entry line && negb (contains_eq (strip line)).

Definition is_sleep (e : event) : bool :=
  match e with
  | Sleep _ => true
  | _ => false
  end.

(** The number of [time.sleep] calls. *)
Definition sleeps (t : list event) : nat :=
  length (List.filter is_sleep t).

Definition is_call (e : event) : bool :=
  match e with
  | Call _ => true
  | _ => false
  end.

(** The number of requests sent to the exchange. *)
Definition calls (t : list event) : nat :=
  length (List.filter is_call t).

Definition is_input (e : event) : bool :=
  match e with
  | Input _ => true
  | _ => false
  end.

(** The number of prompts shown to the operator. *)
Definition prompts (t : list event) : nat :=
  length (List.filter is_input t).

(** * Properties *)

(** ** The order of binary64 values

    [PrimFloat.ltb], [eqb] and [leb] are read through [SFcompare]; what the
    thresholds need is that [<] is irreflexive and respects [==] and [<=],
    NaN and signed zeros included. *)
Section FloatOrder.

Lemma SFcompare_swap (x y : spec_float) (c : comparison) :
  SFcompare x y = Some c -> SFcompare y x = Some (CompOpp c).
Proof.
  destruct x as [sx|sx| |sx mx ex], y as [sy|sy| |sy my ey]; simpl;
    intros H; try discriminate; injection H as <-;
    try (destruct sx; reflexivity); try (destruct sy; reflexivity);
    try (destruct sx, sy; reflexivity).
  change (Pos.compare_cont Eq my mx) with (Pos.compare my mx).
  change (Pos.compare_cont Eq mx my) with (Pos.compare mx my).
  rewrite (Z.compare_antisym ex ey), (Pos.compare_antisym mx my).
  destruct sx, sy; try reflexivity; f_equal;
    destruct (ex ?= ey)%Z; simpl; try reflexivity;
    destruct (mx ?= my)%positive; reflexivity.
Qed.

Lemma SFcompare_Eq_right (x y z : spec_float) :
  SFcompare x y = Some Eq -> SFcompare z x = SFcompare z y.
Proof.
  destruct x as [sx|sx| |sx mx ex], y as [sy|sy| |sy my ey]; simpl;
    intros H; try discriminate;
    try (destruct sx; discriminate); try (destruct sy; discriminate).
  - destruct z; reflexivity.
  - destruct sx, sy; try discriminate; reflexivity.
  - assert (sx = sy /\ ex = ey /\ mx = my) as (-> & -> & ->).
    { destruct sx, sy; try discriminate;
        destruct (ex ?= ey)%Z eqn:He; try discriminate;
        apply Z.compare_eq in He;
        destruct (Pos.compare_cont Eq mx my) eqn:Hm; try discriminate;
        apply Pos.compare_eq in Hm; auto. }
    reflexivity.
Qed.

Lemma ltb_irrefl (x : float) : (x <? x)%float = false.
Proof.
  rewrite FloatAxioms.ltb_spec. unfold SFltb.
  destruct (SFcompare (Prim2SF x) (Prim2SF x)) as [[]|] eqn:H; try reflexivity.
  apply SFcompare_swap in H as H'. simpl in H'. congruence.
Qed.

Lemma eqb_not_ltb (x y : float) :
  (x =? y)%float = true -> (x <? y)%float = false /\ (y <? x)%float = false.
Proof.
  rewrite FloatAxioms.eqb_spec, !FloatAxioms.ltb_spec. unfold SFeqb, SFltb.
  destruct (SFcompare (Prim2SF x) (Prim2SF y)) as [[]|] eqn:H; try discriminate.
  intros _. apply SFcompare_swap in H as ->. simpl. auto.
Qed.

(** [p == b] and [b <= s] exclude [s < p]. *)
Lemma tie_not_above (p b s : float) :
  (p =? b)%float = true -> (b <=? s)%float = true -> (s <? p)%float = false.
Proof.
  rewrite FloatAxioms.eqb_spec, FloatAxioms.leb_spec, FloatAxioms.ltb_spec. unfold SFeqb, SFleb, SFltb.
  destruct (SFcompare (Prim2SF p) (Prim2SF b)) as [[]|] eqn:Hpb; try discriminate.
  intros _. rewrite (SFcompare_Eq_right _ _ (Prim2SF s) Hpb).
  destruct (SFcompare (Prim2SF s) (Prim2SF b)) as [[]|] eqn:Hsb; try reflexivity.
  apply SFcompare_swap in Hsb as ->. simpl. discriminate.
Qed.

(** [p == s] and [b <= s] exclude [p < b]. *)
Lemma tie_not_below (p b s : float) :
  (p =? s)%float = true -> (b <=? s)%float = true -> (p <? b)%float = false.
Proof.
  rewrite FloatAxioms.eqb_spec, FloatAxioms.leb_spec, FloatAxioms.ltb_spec. unfold SFeqb, SFleb, SFltb.
  destruct (SFcompare (Prim2SF p) (Prim2SF s)) as [[]|] eqn:Hps; try discriminate.
  intros _.
  destruct (SFcompare (Prim2SF p) (Prim2SF b)) as [[]|] eqn:Hpb; try reflexivity.
  apply SFcompare_swap in Hpb. simpl in Hpb.
  rewrite (SFcompare_Eq_right _ _ (Prim2SF b) Hps) in Hpb. rewrite Hpb. discriminate.
Qed.

End FloatOrder.

(** ** Running one round *)

Ltac open_round :=
  unfold Bot.iteration, Bot.execute_safe_trade, Bot.send_alert,
    Bot.check_interval, TradingBot.body, TradingBot.dispatch,
    TradingBot.execute_trade, TradingBot.place_oco_order,
    TradingBot.place_stop_limit_sell, TradingBot.float_input,
    bind, try_, call, input, sleep, lift, logging, emit, get_pos, set_pos, ret,
    except_Exception, except_both.

(** Case analysis on every answer the round reads. *)
Ltac answers :=
  repeat match goal with
    | |- context [match ?r with Ok _ => _ | Raise _ => _ end] =>
        let H := fresh "Hr" in destruct r as [?|[]] eqn:H
    | |- context [if ?b then _ else _] =>
        let H := fresh "Hb" in destruct b eqn:H
    | |- context [match ?o with Some _ => _ | None => _ end] =>
        let H := fresh "Ho" in destruct o eqn:H
    end.

(** Use the answers known from the hypotheses. *)
Ltac feed :=
  repeat (simpl; match goal with H : _ = _ |- _ => rewrite H end); simpl.

Ltac observe :=
  unfold submissions, records, fetches, decision, trace, flag, value; simpl.

Section Rounds.
Context {B : Builtins}.

(** ** C6: at most one order is requested per round *)

(** C6. A pass through the automatic loop of either program ([run_bot]'s
    loop body, [BasicBot.run]'s with [ui_mode] off) sends at most one
    order request, market or other, whatever the exchange answers. *)
Theorem one_order_per_round (c : settings) (w : world) (pos : bool) :
  submissions (trace (Bot.iteration c w pos)) <= 1 /\
  submissions (trace (TradingBot.body c false w pos)) <= 1 /\
  length (orders (trace (Bot.iteration c w pos))) <= 1 /\
  length (orders (trace (TradingBot.body c false w pos))) <= 1.
Proof.
  repeat split; open_round; answers; observe; lia.
Qed.

(** ** The rounds against the contract *)

(** A round that got its price requests the order [evaluate] names. *)
Lemma round_decision (c : settings) (w : world) (pos : bool)
    (raw : string) (price : float) :
  ticker w = Ok raw -> py_float raw = Ok price ->
  decision (trace (Bot.iteration c w pos)) = Contract.evaluate price pos c /\
  decision (trace (TradingBot.body c false w pos)) = Contract.evaluate price pos c.
Proof.
  intros Ht Hp. unfold Contract.evaluate.
  split; open_round; rewrite Ht; simpl; rewrite Hp; simpl;
    answers; observe; reflexivity.
Qed.

(** A round requests nothing, one buy or one sell. *)
Lemma round_orders (c : settings) (w : world) (pos : bool) (t : list event) :
  t = trace (Bot.iteration c w pos) \/ t = trace (TradingBot.body c false w pos) ->
  orders t = [] \/ orders t = [BUY] \/ orders t = [SELL].
Proof.
  intros [-> | ->]; open_round; answers; observe; auto.
Qed.

(** The flag after an automatic round is [applyOutcome] of what the round
    requested and of whether the exchange accepted it. *)
Lemma round_flag (c : settings) (w : world) (pos : bool) :
  flag (Bot.iteration c w pos)
  = Contract.applyOutcome (decision (trace (Bot.iteration c w pos)))
      (succeeded (order_reply w)) pos /\
  flag (TradingBot.body c false w pos)
  = Contract.applyOutcome (decision (trace (TradingBot.body c false w pos)))
      (succeeded (order_reply w)) pos.
Proof.
  split; open_round; answers; observe; try reflexivity;
    destruct pos; try reflexivity; discriminate.
Qed.

(** An interactive round never writes the flag. *)
Lemma ui_round_flag (c : settings) (w : world) (pos : bool) :
  flag (TradingBot.body c true w pos) = pos.
Proof.
  open_round; answers; observe; reflexivity.
Qed.

(** ** C1: what a round decides *)

(** C1. In a round that obtained [price], with flag [pos], either program
    requests a buy exactly when the flag is off and [price < buy_price],
    a sell exactly when the flag is on and [price > sell_price], and
    nothing otherwise; the requests of a round are none, one buy or one
    sell, never both. *)
Theorem decision_iff (c : settings) (w : world) (pos : bool)
    (raw : string) (price : float) (t : list event) :
  ticker w = Ok raw -> py_float raw = Ok price ->
  t = trace (Bot.iteration c w pos) \/ t = trace (TradingBot.body c false w pos) ->
  (decision t = RequestBuy <->
     pos = false /\ (price <? buy_price c)%float = true) /\
  (decision t = RequestSell <->
     pos = true /\ (sell_price c <? price)%float = true) /\
  (decision t = NoAction <->
     ~ (pos = false /\ (price <? buy_price c)%float = true) /\
     ~ (pos = true /\ (sell_price c <? price)%float = true)) /\
  (orders t = [] \/ orders t = [BUY] \/ orders t = [SELL]).
Proof.
  intros Ht Hp Hprog.
  assert (decision t = Contract.evaluate price pos c) as ->.
  { destruct (round_decision c w pos raw price Ht Hp) as [H1 H2].
    destruct Hprog as [-> | ->]; assumption. }
  split; [|split; [|split]]; try (eapply round_orders; eassumption);
    unfold Contract.evaluate;
    destruct pos, (price <? buy_price c)%float, (sell_price c <? price)%float;
    simpl; intuition congruence.
Qed.

(** ** C7: the decision depends on price, thresholds and flag only *)

(** C7. Two rounds with the same price, the same settings and the same
    flag decide the same, whatever else differs between their worlds (order
    replies, sleeps, typed lines, account); the decision is the function
    [evaluate] of these three inputs. *)
Theorem decision_is_a_function (c : settings) (w1 w2 : world) (pos : bool)
    (raw1 raw2 : string) (price : float) :
  ticker w1 = Ok raw1 -> py_float raw1 = Ok price ->
  ticker w2 = Ok raw2 -> py_float raw2 = Ok price ->
  decision (trace (Bot.iteration c w1 pos))
    = decision (trace (Bot.iteration c w2 pos)) /\
  decision (trace (TradingBot.body c false w1 pos))
    = decision (trace (TradingBot.body c false w2 pos)) /\
  decision (trace (Bot.iteration c w1 pos)) = Contract.evaluate price pos c /\
  decision (trace (TradingBot.body c false w1 pos)) = Contract.evaluate price pos c.
Proof.
  intros Ht1 Hp1 Ht2 Hp2.
  destruct (round_decision c w1 pos raw1 price Ht1 Hp1) as [A1 B1].
  destruct (round_decision c w2 pos raw2 price Ht2 Hp2) as [A2 B2].
  repeat split; congruence.
Qed.

(** ** C5: ties *)

(** C5, amended. A price equal ([==]) to the buy threshold never requests a
    buy and a price equal to the sell threshold never requests a sell; when
    the buy threshold is not above the sell threshold, a price equal to
    either threshold requests nothing. *)
Theorem ties_take_no_action (c : settings) (w : world) (pos : bool)
    (raw : string) (price : float) (t : list event) :
  ticker w = Ok raw -> py_float raw = Ok price ->
  t = trace (Bot.iteration c w pos) \/ t = trace (TradingBot.body c false w pos) ->
  ((price =? buy_price c)%float = true -> decision t <> RequestBuy) /\
  ((price =? sell_price c)%float = true -> decision t <> RequestSell) /\
  ((buy_price c <=? sell_price c)%float = true ->
   (price =? buy_price c)%float = true \/ (price =? sell_price c)%float = true ->
   decision t = NoAction).
Proof.
  intros Ht Hp Hprog.
  assert (decision t = Contract.evaluate price pos c) as ->.
  { destruct (round_decision c w pos raw price Ht Hp) as [H1 H2].
    destruct Hprog as [-> | ->]; assumption. }
  unfold Contract.evaluate. repeat split.
  - intros He. apply eqb_not_ltb in He as [-> _].
    rewrite andb_false_r. destruct (pos && _); discriminate.
  - intros He. apply eqb_not_ltb in He as [_ ->].
    rewrite andb_false_r. destruct (negb pos && _); discriminate.
  - intros Hle [He | He].
    + rewrite (tie_not_above _ _ _ He Hle).
      apply eqb_not_ltb in He as [-> _]. now rewrite !andb_false_r.
    + rewrite (tie_not_below _ _ _ He Hle).
      apply eqb_not_ltb in He as [_ ->]. now rewrite !andb_false_r.
Qed.

(** ** C2: the life of the flag *)

(** C2. The flag is false when the loop starts ([in_position = False] in
    [run_bot], [self.in_position = False] in [__init__]). An automatic round
    leaves it as [applyOutcome] says: true after an accepted buy, false
    after an accepted sell, unchanged after a refused order or no order. In
    any round of either program, interactive ones included, the flag
    changes only from false to true with one accepted buy or from true to
    false with one accepted sell. *)
Theorem flag_lifecycle (c : settings) (ui : bool) (w : world) (pos : bool) :
  Bot.trading_loop c {| start := w; rounds := [] |} pos = ([], false, Ok Running) /\
  (forall key secret sym b s q tn,
     flag (TradingBot.BasicBot key secret sym b s q tn w pos) = false) /\
  flag (Bot.iteration c w pos)
  = Contract.applyOutcome (decision (trace (Bot.iteration c w pos)))
      (succeeded (order_reply w)) pos /\
  flag (TradingBot.body c false w pos)
  = Contract.applyOutcome (decision (trace (TradingBot.body c false w pos)))
      (succeeded (order_reply w)) pos /\
  (forall (t : list event) (pos' : bool),
     (t, pos') = (trace (Bot.iteration c w pos), flag (Bot.iteration c w pos)) \/
     (t, pos') = (trace (TradingBot.body c ui w pos), flag (TradingBot.body c ui w pos)) ->
     pos' <> pos ->
     succeeded (order_reply w) = true /\
     ((pos = false /\ pos' = true /\ orders t = [BUY]) \/
      (pos = true /\ pos' = false /\ orders t = [SELL]))).
Proof.
  split; [reflexivity|]. split; [reflexivity|].
  destruct (round_flag c w pos) as [H1 H2].
  split; [exact H1|]. split; [exact H2|].
  intros t pos' Hprog Hneq.
  assert (Hauto : forall t0 pos0,
    (t0 = trace (Bot.iteration c w pos) \/ t0 = trace (TradingBot.body c false w pos)) ->
    pos0 = Contract.applyOutcome (decision t0) (succeeded (order_reply w)) pos ->
    pos0 <> pos ->
    succeeded (order_reply w) = true /\
    ((pos = false /\ pos0 = true /\ orders t0 = [BUY]) \/
     (pos = true /\ pos0 = false /\ orders t0 = [SELL]))).
  { intros t0 pos0 Ht0 -> Hne.
    pose proof (round_orders c w pos t0 Ht0) as Ho.
    unfold decision in *.
    destruct Ho as [Ho | [Ho | Ho]]; rewrite Ho in *; simpl in *;
      destruct (succeeded (order_reply w)), pos; simpl in *;
      try congruence; auto. }
  destruct Hprog as [Heq | Heq]; injection Heq as -> ->.
  - apply Hauto; auto.
  - destruct ui.
    + rewrite ui_round_flag in Hneq. congruence.
    + apply Hauto; auto.
Qed.

(** ** C9: the interactive mode does not touch the flag *)

(** C9. With [ui_mode] on, no round changes the flag, whatever is typed
    and whatever the exchange answers, nor does any number of rounds; a bot
    built by [__init__] and run interactively ends with the flag false. *)
Theorem interactive_keeps_flag (c : settings) (w : world) (ws : list world)
    (s : session) (pos : bool) (cl : client) :
  flag (TradingBot.body c true w pos) = pos /\
  flag (while_true (TradingBot.body c true) ws pos) = pos /\
  flag (TradingBot.run c true s pos) = pos /\
  flag ((bot <- TradingBot.BasicBot (api_key cl) (api_secret cl) (symbol c)
                  (buy_price c) (sell_price c) (quantity c) (testnet cl) ;;
         TradingBot.run (snd bot) true) s pos) = false.
Proof.
  destruct c as [sym b sl q]; set (c := Build_settings sym b sl q).
  assert (Hloop : forall l p, flag (while_true (TradingBot.body c true) l p) = p).
  { induction l as [|w0 l IH]; intros p; [reflexivity|].
    simpl. pose proof (ui_round_flag c w0 p) as Hw.
    destruct (TradingBot.body c true w0 p) as [[t p1] [[]|e]];
      unfold flag in Hw; simpl in Hw; subst p1; try reflexivity.
    specialize (IH p).
    destruct (while_true (TradingBot.body c true) l p) as [[t' p2] r].
    exact IH. }
  assert (Hrun : forall p, flag (TradingBot.run c true s p) = p).
  { intros p. unfold TradingBot.run, TradingBot.trading_loop, TradingBot.get_balance,
      within, bind, try_, call, lift, logging, emit, ret, except_Exception.
    specialize (Hloop (rounds s) p).
    destruct (account (start s)) as [bs|[]]; simpl;
      try (destruct (free_amounts bs ∅) as [m|[]]; simpl);
      try reflexivity;
      destruct (while_true (TradingBot.body c true) (rounds s) p) as [[t' p2] [e|[]]];
      unfold flag in *; simpl in *; assumption. }
  split; [apply ui_round_flag|]. split; [apply Hloop|]. split; [apply Hrun|].
  unfold bind, TradingBot.BasicBot, set_pos, ret. simpl. fold c.
  specialize (Hrun false).
  destruct (TradingBot.run c true s false) as [[t p] r]. exact Hrun.
Qed.

(** ** C3: a refused order *)

(** C3, amended. When the exchange refuses a market order (the call raises
    an [Exception]): in [bot.py], [execute_safe_trade] requests the order,
    writes one error record and one warning (alert) record, leaves the flag
    and returns [False]; in [trading_bot.py], [execute_trade] requests the
    order, writes one error record and no warning record, leaves the flag
    and returns [False]. In an automatic round of either program whose
    sleep is not interrupted, and in an interactive round of
    [trading_bot.py] where the operator typed [b] or [s], these are the
    only error and warning records of the round, the flag is unchanged and
    the loop goes on with the next round. *)
Theorem failed_order (c : settings) (w : world) (ws : list world) (pos : bool)
    (raw : string) (price : float) (name : string) :
  ticker w = Ok raw -> py_float raw = Ok price ->
  order_reply w = Raise (Exception name) ->
  (forall is_buy : bool,
     Bot.execute_safe_trade (symbol c) (quantity c) is_buy w pos
     = ([Call (if is_buy then OrderMarketBuy (symbol c) (quantity c)
               else OrderMarketSell (symbol c) (quantity c));
         Log ERROR (F "Trade failed: {}" [AExn (Exception name)]);
         Log WARNING
           (F "ALERT: {}"
              [AMsg (F "TRADE FAILED: {} {} {}"
                       [AStr (symbol c); AFloat (quantity c);
                        AStr (side_name is_buy)])])],
        pos, Ok false) /\
     TradingBot.execute_trade c is_buy w pos
     = ([Call (if is_buy then OrderMarketBuy (symbol c) (quantity c)
               else OrderMarketSell (symbol c) (quantity c));
         Log ERROR (F "Trade failed: {}" [AExn (Exception name)])],
        pos, Ok false)) /\
  ((pos = false /\ (price <? buy_price c)%float = true) \/
   (pos = true /\ (sell_price c <? price)%float = true) ->
   nap w = Ok tt ->
   (let o := Bot.iteration c w pos in
    let rest := while_true (Bot.iteration c ;; ret Continue) ws pos in
    submissions (trace o) = 1 /\ flag o = pos /\
    records ERROR (trace o) = 1 /\ records WARNING (trace o) = 1 /\
    value o = Ok tt /\
    while_true (Bot.iteration c ;; ret Continue) (w :: ws) pos
    = (trace o ++ trace rest, flag rest, value rest)) /\
   (let o := TradingBot.body c false w pos in
    let rest := while_true (TradingBot.body c false) ws pos in
    submissions (trace o) = 1 /\ flag o = pos /\
    records ERROR (trace o) = 1 /\ records WARNING (trace o) = 0 /\
    value o = Ok Continue /\
    while_true (TradingBot.body c false) (w :: ws) pos
    = (trace o ++ trace rest, flag rest, value rest))) /\
  (forall line : string,
     nth_error (typed w) 0 = Some (Ok line) ->
     lower (strip line) = "b" \/ lower (strip line) = "s" ->
     let o := TradingBot.body c true w pos in
     let rest := while_true (TradingBot.body c true) ws pos in
     submissions (trace o) = 1 /\
     orders (trace o)
     = [if String.eqb (lower (strip line)) "b" then BUY else SELL] /\
     flag o = pos /\
     records ERROR (trace o) = 1 /\ records WARNING (trace o) = 0 /\
     value o = Ok Continue /\
     while_true (TradingBot.body c true) (w :: ws) pos
     = (trace o ++ trace rest, flag rest, value rest)).
Proof.
  intros Ht Hp Ho. split; [|split].
  - intros []; split; open_round; feed; reflexivity.
  - intros Hdo Hn.
    destruct Hdo as [[-> Hc] | [-> Hc]];
      (split; cbv zeta; repeat split;
       try (open_round; feed; observe; reflexivity);
       cbn [while_true]; open_round; feed;
       match goal with
       | |- context [while_true ?b ws ?p] =>
           destruct (while_true b ws p) as [[t' p'] r']
       end; reflexivity).
  - intros line Hl Hcmd. cbv zeta.
    destruct Hcmd as [Hc | Hc];
      (repeat split;
       try (open_round; rewrite Ht; cbn -[nth_error]; rewrite Hp;
            cbn -[nth_error]; rewrite Hl; cbn -[nth_error]; rewrite Hc;
            cbn -[nth_error]; rewrite Ho; reflexivity);
       cbn [while_true]; open_round; rewrite Ht; cbn -[nth_error while_true];
       rewrite Hp; cbn -[nth_error while_true]; rewrite Hl;
       cbn -[nth_error while_true]; rewrite Hc; cbn -[nth_error while_true];
       rewrite Ho; cbn -[nth_error while_true];
       match goal with
       | |- context [while_true ?b ws ?p] =>
           destruct (while_true b ws p) as [[t' p'] r']
       end; reflexivity).
Qed.

(** ** C4: a failed price fetch *)


(** ** C10: the balances kept *)

(** The comprehension adds to [acc] the entries whose amount is positive. *)
Lemma free_amounts_spec (bs : list balance) :
  forall acc : gmap string float,
  (forall b, b ∈ bs -> exists x, py_float (free b) = Ok x) ->
  exists m : gmap string float,
    free_amounts bs acc = Ok m /\
    forall (a : string) (x : float),
      m !! a = Some x ->
      acc !! a = Some x \/
      exists b, b ∈ bs /\ asset b = a /\ py_float (free b) = Ok x /\
                (0 <? x)%float = true.
Proof.
  induction bs as [|b0 bs IH]; intros acc Hparse; simpl.
  - exists acc. split; [reflexivity|]. auto.
  - destruct (Hparse b0) as [x0 Hx0]; [apply elem_of_cons; auto|].
    rewrite Hx0.
    assert (Hrest : forall b, b ∈ bs -> exists x, py_float (free b) = Ok x).
    { intros b Hb. apply Hparse. apply elem_of_cons. auto. }
    destruct (0 <? x0)%float eqn:Hpos.
    + destruct (IH (<[asset b0 := x0]> acc) Hrest) as (m & Hm & Hin).
      exists m. split; [exact Hm|]. intros a x Hax.
      destruct (Hin a x Hax) as [Hacc | (b & Hb & Ha & Hp & Hx)].
      * destruct (decide (asset b0 = a)) as [Heq | Hne].
        -- subst a. rewrite lookup_insert_eq in Hacc. injection Hacc as <-.
           right. exists b0. repeat split; auto. apply elem_of_cons. auto.
        -- rewrite lookup_insert_ne in Hacc by exact Hne. auto.
      * right. exists b. repeat split; auto. apply elem_of_cons. auto.
    + destruct (IH acc Hrest) as (m & Hm & Hin).
      exists m. split; [exact Hm|]. intros a x Hax.
      destruct (Hin a x Hax) as [Hacc | (b & Hb & Ha & Hp & Hx)]; [auto|].
      right. exists b. repeat split; auto. apply elem_of_cons. auto.
Qed.

(** Nothing is lost: an asset of [acc] or of a positive entry is a key. *)
Lemma free_amounts_keeps (bs : list balance) :
  forall (acc m : gmap string float) (a : string),
  free_amounts bs acc = Ok m ->
  is_Some (acc !! a) \/
  (exists b x, b ∈ bs /\ asset b = a /\ py_float (free b) = Ok x /\
               (0 <? x)%float = true) ->
  is_Some (m !! a).
Proof.
  induction bs as [|b0 bs IH]; intros acc m a; simpl.
  - intros [= <-] [Hacc | (b & x & Hb & _)]; [exact Hacc|].
    apply elem_of_nil in Hb. destruct Hb.
  - destruct (py_float (free b0)) as [x0|e] eqn:Hx0; [|discriminate].
    intros Hm Hsrc.
    destruct (0 <? x0)%float eqn:Hpos.
    + apply (IH _ _ _ Hm).
      destruct Hsrc as [Hacc | (b & x & Hb & Ha & Hp & Hx)].
      * left. destruct (decide (asset b0 = a)) as [-> | Hne].
        -- rewrite lookup_insert_eq. eauto.
        -- rewrite lookup_insert_ne by exact Hne. exact Hacc.
      * apply elem_of_cons in Hb as [-> | Hb].
        -- left. rewrite Ha, lookup_insert_eq. eauto.
        -- right. exists b, x. auto.
    + apply (IH _ _ _ Hm).
      destruct Hsrc as [Hacc | (b & x & Hb & Ha & Hp & Hx)]; [auto|].
      apply elem_of_cons in Hb as [-> | Hb].
      * rewrite Hx0 in Hp. injection Hp as ->. congruence.
      * right. exists b, x. auto.
Qed.

(** C10. When the account query answers and every [free] field is a number,
    [get_account_balance] and [get_balance] return the same mapping; its
    keys are exactly the assets with an entry whose free amount is strictly
    positive, each value is such an amount, and an asset whose entries are
    all zero is not a key. *)
Theorem balances_are_the_positive_ones (w : world) (pos : bool)
    (bs : list balance) :
  account w = Ok bs ->
  (forall b, b ∈ bs -> exists x, py_float (free b) = Ok x) ->
  exists m : gmap string float,
    value (Bot.get_account_balance w pos) = Ok m /\
    value (TradingBot.get_balance w pos) = Ok m /\
    (forall a : string,
       is_Some (m !! a) <->
       exists b x, b ∈ bs /\ asset b = a /\ py_float (free b) = Ok x /\
                   (0 <? x)%float = true) /\
    (forall (a : string) (x : float),
       m !! a = Some x ->
       (0 <? x)%float = true /\
       exists b, b ∈ bs /\ asset b = a /\ py_float (free b) = Ok x) /\
    (forall a : string,
       (forall b x, b ∈ bs -> asset b = a -> py_float (free b) = Ok x ->
                    (x =? 0)%float = true) ->
       m !! a = None).
Proof.
  intros Hacc Hparse.
  destruct (free_amounts_spec bs ∅ Hparse) as (m & Hm & Hin).
  assert (Hval : forall a x, m !! a = Some x ->
            exists b, b ∈ bs /\ asset b = a /\ py_float (free b) = Ok x /\
                      (0 <? x)%float = true).
  { intros a x Hax. destruct (Hin a x Hax) as [He | H]; [|exact H].
    rewrite lookup_empty in He. discriminate. }
  exists m. split; [|split; [|split; [|split]]].
  - unfold Bot.get_account_balance. open_round. feed. reflexivity.
  - unfold TradingBot.get_balance. open_round. feed. reflexivity.
  - intros a. split.
    + intros [x Hax]. destruct (Hval a x Hax) as (b & Hb). exists b, x. exact Hb.
    + intros Hsrc. apply (free_amounts_keeps bs ∅ m a Hm). right. exact Hsrc.
  - intros a x Hax. destruct (Hval a x Hax) as (b & Hb & Ha & Hp & Hx).
    split; [exact Hx|]. exists b. auto.
  - intros a Hzero. destruct (m !! a) as [x|] eqn:Hax; [|reflexivity].
    destruct (Hval a x Hax) as (b & Hb & Ha & Hp & Hx).
    apply (Hzero b x Hb Ha) in Hp. apply eqb_not_ltb in Hp as [_ Hp]. congruence.
Qed.

(** ** C8: the defaults when [.env] is missing *)

(** The built-in table of [load_config], key by key. *)
Lemma defaults_lookup :
  Bot.defaults !! "BINANCE_API_KEY" = Some "your_testnet_key" /\
  Bot.defaults !! "BINANCE_API_SECRET" = Some "your_testnet_secret" /\
  Bot.defaults !! "USE_TESTNET" = Some "True" /\
  Bot.defaults !! "SYMBOL" = Some "BTCUSDT" /\
  Bot.defaults !! "BUY_THRESHOLD" = Some "60000" /\
  Bot.defaults !! "SELL_THRESHOLD" = Some "68000" /\
  Bot.defaults !! "TRADE_QUANTITY" = Some "0.001".
Proof. repeat split; vm_compute; reflexivity. Qed.

(** [{}.get(key, default)] is the default. *)
Lemma get_empty (key default : string) : get ∅ key default = default.
Proof. unfold get. now rewrite lookup_empty. Qed.

(** C8, amended. When [.env] is missing, neither loader raises: [load_config]
    prints a warning and returns its built-in table, from which [bot.py]
    gets the placeholder credentials [your_testnet_key] and
    [your_testnet_secret], the test network, BTCUSDT, 60000, 68000 and
    0.001; [load_env] logs a warning and returns an empty table, from which
    the argparse defaults of [trading_bot.py] give empty credentials, the
    test network, BTCUSDT, 60000, 68000 and 0.001. *)
Theorem missing_file_defaults (E : Type) (env : E) (pos : bool) :
  py_float "60000" = Ok 60000%float ->
  py_float "68000" = Ok 68000%float ->
  py_float "0.001" = Ok 0.001%float ->
  Bot.load_config FileNotFound env pos
  = ([Print (F "Warning: No .env file found. Using default testnet config." [])],
     pos, Ok Bot.defaults) /\
  value ((config <- Bot.load_config FileNotFound ;; Bot.make_client config) env pos)
  = Ok {| api_key := "your_testnet_key"; api_secret := "your_testnet_secret";
          testnet := true |} /\
  value ((config <- Bot.load_config FileNotFound ;; Bot.read_settings config) env pos)
  = Ok {| symbol := "BTCUSDT"; buy_price := 60000; sell_price := 68000;
          quantity := 0.001 |} /\
  TradingBot.load_env FileNotFound env pos
  = ([Log WARNING (F ".env file not found. Proceeding with CLI/default config." [])],
     pos, Ok ∅) /\
  value ((e <- TradingBot.load_env FileNotFound ;;
          TradingBot.parse_args e TradingBot.no_options) env pos)
  = Ok {| TradingBot.arg_api_key := ""; TradingBot.arg_api_secret := "";
          TradingBot.arg_symbol := "BTCUSDT";
          TradingBot.arg_buy := 60000; TradingBot.arg_sell := 68000;
          TradingBot.arg_qty := 0.001;
          TradingBot.arg_testnet := true; TradingBot.arg_ui := false |}.
Proof.
  intros Hb Hs Hq.
  destruct defaults_lookup as (Lk & Lsec & Lt & Lsym & Lb & Ls & Lq).
  split; [reflexivity|]. split; [|split; [|split; [reflexivity|]]].
  - unfold Bot.make_client, item, get, Bot.load_config,
      bind, lift, emit, ret, value.
    cbn -[py_float lookup]. rewrite Lk. cbn -[py_float lookup].
    rewrite Lsec. cbn -[py_float lookup]. rewrite Lt. reflexivity.
  - unfold Bot.read_settings, float_item, item, Bot.load_config,
      bind, lift, emit, ret, value.
    cbn -[py_float lookup]. rewrite Lsym. cbn -[py_float lookup].
    rewrite Lb. cbn -[py_float lookup]. rewrite Hb. cbn -[py_float lookup].
    rewrite Ls. cbn -[py_float lookup]. rewrite Hs. cbn -[py_float lookup].
    rewrite Lq. cbn -[py_float lookup]. rewrite Hq. reflexivity.
  - unfold TradingBot.parse_args, TradingBot.load_env, TradingBot.float_option,
      bind, lift, logging, emit, ret, value.
    cbn -[py_float get]. rewrite !get_empty.
    rewrite Hb. cbn -[py_float get]. rewrite Hs. cbn -[py_float get].
    rewrite Hq. reflexivity.
Qed.

End Rounds.

(** * Concrete runs

    The theorems above at the sample inputs, with [float_table] for
    [float]: the scenarios of the specification and the inputs on which a
    claim of the specification and the code part. *)

(** Scenario 1: thresholds 60000/68000, not in position, price 59999.99. *)
Lemma decision_iff_witness :
  ticker (quiet "59999.99" filled) = Ok "59999.99" /\
  py_float (Builtins := float_table) "59999.99" = Ok 59999.99%float /\
  decision (trace (Bot.iteration (B := float_table) default_settings
                     (quiet "59999.99" filled) false)) = RequestBuy.
Proof.
  split; [reflexivity|]. split; [reflexivity|].
  apply (decision_iff (B := float_table) default_settings (quiet "59999.99" filled)
           false "59999.99" 59999.99%float _ eq_refl eq_refl (or_introl eq_refl)).
  split; reflexivity.
Defined.

(** Scenario 2 in two worlds that differ in everything but the price. *)
Lemma decision_is_a_function_witness :
  ticker (quiet "68000.01" filled) = Ok "68000.01" /\
  ticker {| account := Raise (Exception "Timeout"); ticker := Ok "68000.01";
            order_reply := rejected; nap := Raise KeyboardInterrupt;
            typed := [Ok "q"] |} = Ok "68000.01" /\
  py_float (Builtins := float_table) "68000.01" = Ok 68000.01%float /\
  decision (trace (TradingBot.body (B := float_table) default_settings false
                     (quiet "68000.01" filled) true))
  = Contract.evaluate 68000.01 true default_settings.
Proof.
  split; [reflexivity|]. split; [reflexivity|]. split; [reflexivity|].
  exact (proj2 (proj2 (proj2
    (decision_is_a_function (B := float_table) default_settings
       (quiet "68000.01" filled)
       {| account := Raise (Exception "Timeout"); ticker := Ok "68000.01";
          order_reply := rejected; nap := Raise KeyboardInterrupt;
          typed := [Ok "q"] |}
       true "68000.01" "68000.01" 68000.01%float
       eq_refl eq_refl eq_refl eq_refl)))).
Defined.

(** A price on the buy threshold, thresholds in order. *)
Lemma ties_take_no_action_witness :
  ticker (quiet "60000" filled) = Ok "60000" /\
  py_float (Builtins := float_table) "60000" = Ok 60000%float /\
  (buy_price default_settings <=? sell_price default_settings)%float = true /\
  (60000 =? buy_price default_settings)%float = true /\
  decision (trace (Bot.iteration (B := float_table) default_settings
                     (quiet "60000" filled) false)) = NoAction.
Proof.
  split; [reflexivity|]. split; [reflexivity|]. split; [reflexivity|].
  split; [reflexivity|].
  exact (proj2 (proj2
    (ties_take_no_action (B := float_table) default_settings (quiet "60000" filled)
       false "60000" 60000%float _ eq_refl eq_refl (or_introl eq_refl)))
    eq_refl (or_introl eq_refl)).
Defined.

(** An accepted buy is the one change of the flag in its round. *)
Lemma flag_lifecycle_witness :
  flag (Bot.iteration (B := float_table) default_settings
          (quiet "59999.99" filled) false) <> false /\
  succeeded (order_reply (quiet "59999.99" filled)) = true /\
  orders (trace (Bot.iteration (B := float_table) default_settings
                   (quiet "59999.99" filled) false)) = [BUY].
Proof.
  assert (Hne : flag (Bot.iteration (B := float_table) default_settings
                        (quiet "59999.99" filled) false) <> false)
    by (vm_compute; discriminate).
  split; [exact Hne|].
  destruct (proj2 (proj2 (proj2 (proj2
    (flag_lifecycle (B := float_table) default_settings false
       (quiet "59999.99" filled) false))))
    _ _ (or_introl eq_refl) Hne) as [Hok [(_ & _ & Ho) | (Hpos & _)]].
  - split; [exact Hok | exact Ho].
  - discriminate Hpos.
Defined.

(** Scenario 4: a buy the exchange refuses, in the automatic loops and
    typed at the prompt. *)
Lemma failed_order_witness :
  ticker (quiet "59999.99" rejected) = Ok "59999.99" /\
  py_float (Builtins := float_table) "59999.99" = Ok 59999.99%float /\
  (59999.99 <? buy_price default_settings)%float = true /\
  order_reply (quiet "59999.99" rejected) = Raise (Exception "BinanceAPIException") /\
  nap (quiet "59999.99" rejected) = Ok tt /\
  records WARNING (trace (Bot.iteration (B := float_table) default_settings
                            (quiet "59999.99" rejected) false)) = 1 /\
  records WARNING (trace (TradingBot.body (B := float_table) default_settings false
                            (quiet "59999.99" rejected) false)) = 0 /\
  nth_error (typed {| account := Ok []; ticker := Ok "59999.99";
                      order_reply := rejected; nap := Ok tt;
                      typed := [Ok "b"] |}) 0 = Some (Ok "b") /\
  value (TradingBot.body (B := float_table) default_settings true
           {| account := Ok []; ticker := Ok "59999.99";
              order_reply := rejected; nap := Ok tt; typed := [Ok "b"] |} false)
  = Ok Continue.
Proof.
  split; [reflexivity|]. split; [reflexivity|]. split; [reflexivity|].
  split; [reflexivity|]. split; [reflexivity|].
  destruct (failed_order (B := float_table) default_settings
              (quiet "59999.99" rejected) [] false "59999.99" 59999.99%float
              "BinanceAPIException" eq_refl eq_refl eq_refl)
    as (_ & Hauto & _).
  destruct (Hauto (or_introl (conj eq_refl eq_refl)) eq_refl) as (Hbot & Htb).
  cbv zeta in Hbot, Htb.
  destruct Hbot as (_ & _ & _ & Hw1 & _). destruct Htb as (_ & _ & _ & Hw2 & _).
  split; [exact Hw1|]. split; [exact Hw2|]. split; [reflexivity|].
  destruct (failed_order (B := float_table) default_settings
              {| account := Ok []; ticker := Ok "59999.99";
                 order_reply := rejected; nap := Ok tt; typed := [Ok "b"] |}
              [] false "59999.99" 59999.99%float
              "BinanceAPIException" eq_refl eq_refl eq_refl)
    as (_ & _ & Hmanual).
  destruct (Hmanual "b" eq_refl (or_introl eq_refl))
    as (_ & _ & _ & _ & _ & Hv & _).
  exact Hv.
Defined.


(** An account with one empty and one funded asset. *)
Lemma balances_are_the_positive_ones_witness :
  exists m : gmap string float,
    value (Bot.get_account_balance (B := float_table)
             {| account := Ok [ {| asset := "BTC"; free := "0.00000000" |};
                                {| asset := "USDT"; free := "1.50000000" |} ];
                ticker := Ok "60000"; order_reply := filled; nap := Ok tt;
                typed := [] |} false) = Ok m /\
    is_Some (m !! "USDT") /\ m !! "BTC" = None.
Proof.
  destruct (balances_are_the_positive_ones (B := float_table)
              {| account := Ok [ {| asset := "BTC"; free := "0.00000000" |};
                                 {| asset := "USDT"; free := "1.50000000" |} ];
                 ticker := Ok "60000"; order_reply := filled; nap := Ok tt;
                 typed := [] |} false
              [ {| asset := "BTC"; free := "0.00000000" |};
                {| asset := "USDT"; free := "1.50000000" |} ] eq_refl)
    as (m & Hbot & _ & Hkeys & _ & Hzero).
  - intros b Hb. apply elem_of_cons in Hb as [-> | Hb].
    + exists 0%float. reflexivity.
    + apply list_elem_of_singleton in Hb as ->. exists 1.5%float. reflexivity.
  - exists m. split; [exact Hbot|]. split.
    + apply Hkeys. exists {| asset := "USDT"; free := "1.50000000" |}, 1.5%float.
      split; [|repeat split].
      apply elem_of_cons. right. apply elem_of_cons. left. reflexivity.
    + apply Hzero. intros b x Hb Ha Hp.
      apply elem_of_cons in Hb as [-> | Hb].
      * injection Hp as <-. reflexivity.
      * apply list_elem_of_singleton in Hb as ->. discriminate Ha.
Defined.

(** The defaults with [float_table] for [float]. *)
Lemma missing_file_defaults_witness :
  py_float (Builtins := float_table) "60000" = Ok 60000%float /\
  py_float (Builtins := float_table) "68000" = Ok 68000%float /\
  py_float (Builtins := float_table) "0.001" = Ok 0.001%float /\
  value ((config <- Bot.load_config FileNotFound ;;
          Bot.read_settings (B := float_table) config) tt false)
  = Ok default_settings.
Proof.
  split; [reflexivity|]. split; [reflexivity|]. split; [reflexivity|].
  exact (proj1 (proj2 (proj2
    (missing_file_defaults (B := float_table) unit tt false eq_refl eq_refl eq_refl)))).
Defined.

(** ** Where the code and the specification part *)

(** C3, as stated, fails in [trading_bot.py]: the buy of scenario 4 is
    refused, [execute_trade] reports the failure, and the round writes an
    error record but no warning (alert) record. *)
Lemma refused_order_without_alert :
  order_reply (quiet "59999.99" rejected) = Raise (Exception "BinanceAPIException") /\
  orders (trace (TradingBot.body (B := float_table) default_settings false
                   (quiet "59999.99" rejected) false)) = [BUY] /\
  value (TradingBot.execute_trade default_settings true
           (quiet "59999.99" rejected) false) = Ok false /\
  records ERROR (trace (TradingBot.body (B := float_table) default_settings false
                          (quiet "59999.99" rejected) false)) = 1 /\
  records WARNING (trace (TradingBot.body (B := float_table) default_settings false
                            (quiet "59999.99" rejected) false)) <> 1.
Proof.
  repeat split; try reflexivity. vm_compute. discriminate.
Qed.


(** C5, as stated, fails when the thresholds are crossed (buy 68000, sell
    60000): in position, a price equal to the buy threshold is above the
    sell threshold, and both programs sell. *)
Lemma tie_with_crossed_thresholds :
  (68000 =? buy_price crossed_settings)%float = true /\
  py_float (Builtins := float_table) "68000" = Ok 68000%float /\
  decision (trace (Bot.iteration (B := float_table) crossed_settings
                     (quiet "68000" filled) true)) = RequestSell /\
  decision (trace (TradingBot.body (B := float_table) crossed_settings false
                     (quiet "68000" filled) true)) = RequestSell /\
  RequestSell <> NoAction.
Proof.
  repeat split; try reflexivity. discriminate.
Qed.

(** C8, as stated, fails in [trading_bot.py], whose default credentials are
    empty strings, not the placeholders of [bot.py]; and neither loader is
    silent. *)
Lemma missing_file_empty_credentials :
  (exists a : TradingBot.args,
     value ((e <- TradingBot.load_env FileNotFound ;;
             TradingBot.parse_args (B := float_table) e TradingBot.no_options)
              tt false) = Ok a /\
     TradingBot.arg_api_key a = "" /\ TradingBot.arg_api_secret a = "" /\
     TradingBot.arg_api_key a <> "your_testnet_key") /\
  trace (Bot.load_config FileNotFound tt false) <> [] /\
  trace (TradingBot.load_env FileNotFound tt false) <> [].
Proof.
  split; [|split; discriminate].
  eexists. split; [vm_compute; reflexivity|].
  repeat split. discriminate.
Qed.

(** A manual buy the exchange accepts: one order, the flag still false. *)
Example manual_buy_keeps_flag :
  TradingBot.body (B := float_table) default_settings true
    {| account := Ok []; ticker := Ok "59999.99"; order_reply := filled;
       nap := Ok tt; typed := [Ok " B "] |} false
  = ([Call (GetSymbolTicker "BTCUSDT");
      Log INFO (F "{} Price: ${:.2f} | Position: {}"
                  [AStr "BTCUSDT"; AFloat 59999.99; AStr "NO"]);
      Input "Enter 'b' to buy, 's' to sell, 'oco' for OCO, 'stop' for Stop-Limit, or 'q' to quit: ";
      Call (OrderMarketBuy "BTCUSDT" 0.001);
      Log INFO (F "{} order executed: {}" [AStr "BUY"; AOrder {| orderId := 1 |}])],
     false, Ok Continue).
Proof. reflexivity. Qed.

(** * Further properties of the two programs *)

(** ** The [.env] reader *)
Section DotEnv.

Lemma split_eq_Some (s k v : string) :
  split_eq s = Some (k, v) <->
  s = String.append k (String "="%char v) /\ contains_eq k = false.
Proof.
  revert k v. induction s as [|a s IH]; intros k v; simpl.
  - split; [discriminate|]. intros [H _]. destruct k; discriminate.
  - destruct (Ascii.eqb a "="%char) eqn:Ha.
    + apply Ascii.eqb_eq in Ha. subst a. split.
      * intros [= <- <-]. auto.
      * intros [H Hk]. destruct k as [|b k]; simpl in *.
        -- injection H as ->. reflexivity.
        -- injection H as <- _. simpl in Hk. discriminate.
    + split.
      * destruct (split_eq s) as [[k0 v0]|] eqn:Hs; [|discriminate].
        intros [= <- <-]. destruct (proj1 (IH k0 v0) eq_refl) as [-> Hk]. simpl.
        rewrite Ha, Hk. auto.
      * intros [H Hk]. destruct k as [|b k]; simpl in *.
        -- injection H as -> _. rewrite Ascii.eqb_refl in Ha. discriminate.
        -- injection H as <- ->. apply orb_false_iff in Hk as [_ Hk].
           rewrite (proj2 (IH k v) (conj eq_refl Hk)). reflexivity.
Qed.

Lemma split_eq_None (s : string) :
  split_eq s = None <-> contains_eq s = false.
Proof.
  induction s as [|a s IH]; simpl; [tauto|].
  destruct (Ascii.eqb a "="%char); simpl.
  - split; discriminate.
  - destruct (split_eq s) as [[k v]|].
    + split; [discriminate|]. intros H. apply IH in H. discriminate.
    + split; [intros _; apply IH; reflexivity | reflexivity].
Qed.

(** [key, value = s.split('=', 1)] cuts [s] at its first ['=']: the key
    has no ['='], the value is all that follows (further ['='] included)
    and key, ['='] and value give [s] back; there is no such cut exactly
    when [s] has no ['=']. *)
Theorem split_at_first_equals (s : string) :
  (forall k v, split_eq s = Some (k, v) <->
               s = String.append k (String "="%char v) /\ contains_eq k = false) /\
  (split_eq s = None <-> contains_eq s = false) /\
  (forall k v, contains_eq k = false ->
               split_eq (String.append k (String "="%char v)) = Some (k, v)).
Proof.
  split; [intros k v; apply split_eq_Some|]. split; [apply split_eq_None|].
  intros k v Hk. apply split_eq_Some. auto.
Qed.

Lemma lstrip_head (s : string) : head_space (lstrip s) = false.
Proof.
  induction s as [|a s IH]; simpl; [reflexivity|].
  destruct (is_space a) eqn:Ha; [exact IH | simpl; exact Ha].
Qed.

Lemma lstrip_fixed (s : string) : head_space s = false -> lstrip s = s.
Proof. destruct s as [|a s]; simpl; [reflexivity | intros ->; reflexivity]. Qed.

Lemma rstrip_last (s : string) : last_space (rstrip s) = false.
Proof.
  induction s as [|a s IH]; simpl; [reflexivity|].
  destruct (rstrip s) as [|b r] eqn:Hr.
  - destruct (is_space a) eqn:Ha; simpl; [reflexivity | exact Ha].
  - exact IH.
Qed.

Lemma rstrip_fixed (s : string) : last_space s = false -> rstrip s = s.
Proof.
  induction s as [|a s IH]; [reflexivity|].
  intros H. simpl. destruct s as [|b s].
  - simpl in *. rewrite H. reflexivity.
  - rewrite IH by exact H. reflexivity.
Qed.

Lemma rstrip_head (s : string) : head_space s = false -> head_space (rstrip s) = false.
Proof.
  destruct s as [|a s]; simpl; [reflexivity|]. intros Ha.
  destruct (rstrip s); [rewrite Ha|]; simpl; exact Ha.
Qed.

(** [s.strip()] has white space neither at its start nor at its end,
    and stripping again changes nothing. *)
Theorem strip_is_stripped (s : string) :
  head_space (strip s) = false /\
  last_space (strip s) = false /\
  strip (strip s) = strip s.
Proof.
  unfold strip.
  assert (Hh : head_space (rstrip (lstrip s)) = false)
    by (apply rstrip_head, lstrip_head).
  assert (Hl : last_space (rstrip (lstrip s)) = false) by apply rstrip_last.
  repeat split; try assumption.
  rewrite (lstrip_fixed _ Hh). apply rstrip_fixed, Hl.
Qed.

Lemma read_lines_app (ls1 ls2 : list string) :
  forall acc : gmap string string,
  read_lines (ls1 ++ ls2) acc
  = match read_lines ls1 acc with
    | Ok m => read_lines ls2 m
    | Raise e => Raise e
    end.
Proof.
  induction ls1 as [|l ls1 IH]; intros acc; simpl; [reflexivity|].
  destruct (negb (String.eqb (strip l) "") && negb (startswith_hash l)).
  - destruct (split_eq (strip l)) as [[k v]|]; [apply IH | reflexivity].
  - apply IH.
Qed.

(** X2. Reading the lines of [.env] fails exactly when some line passes the
    entry test and has no ['=']; the failure is a [ValueError], which
    neither [load_config] nor [load_env] catches. *)
Theorem malformed_line_raises (ls : list string) (acc : gmap string string) :
  (existsb malformed ls = true <->
   read_lines ls acc = Raise (Exception "ValueError")) /\
  (existsb malformed ls = false <-> exists m, read_lines ls acc = Ok m) /\
  (forall (E : Type) (env : E) (pos : bool),
     existsb malformed ls = true ->
     Bot.load_config (Lines ls) env pos = ([], pos, Raise (Exception "ValueError")) /\
     TradingBot.load_env (Lines ls) env pos = ([], pos, Raise (Exception "ValueError"))).
Proof.
  assert (Hcase : forall l a,
            (existsb malformed l = true /\
             read_lines l a = Raise (Exception "ValueError")) \/
            (existsb malformed l = false /\ exists m, read_lines l a = Ok m)).
  { induction l as [|l0 l IH]; intros a; simpl.
    - right. split; [reflexivity | eauto].
    - change (malformed l0) with (is_entry l0 && negb (contains_eq (strip l0))).
      unfold is_entry.
      destruct (negb (String.eqb (strip l0) "") && negb (startswith_hash l0));
        simpl; [|apply IH].
      destruct (split_eq (strip l0)) as [[k v]|] eqn:Hs.
      + assert (contains_eq (strip l0) = true) as ->.
        { destruct (contains_eq (strip l0)) eqn:Hc; [reflexivity|].
          apply split_eq_None in Hc. congruence. }
        simpl. apply IH.
      + apply split_eq_None in Hs. rewrite Hs. simpl. left. auto. }
  split; [|split].
  - destruct (Hcase ls acc) as [[H1 H2] | [H1 [m H2]]]; rewrite H1, H2;
      split; congruence.
  - destruct (Hcase ls acc) as [[H1 H2] | [H1 [m H2]]]; rewrite H1, H2; split;
      try congruence; eauto. intros [m' Hm]. discriminate.
  - intros E env pos Hbad.
    destruct (Hcase ls ∅) as [[_ H2] | [H1 _]]; [|congruence].
    unfold Bot.load_config, TradingBot.load_env, lift. rewrite H2. auto.
Qed.

(** X3. Blank lines and lines that begin with ['#'] define nothing: a file
    made of such lines only leaves the table as it was, so that [load_env]
    and [load_config] return the empty table for it. *)
Theorem blank_and_comment_lines_skipped (ls : list string) (acc : gmap string string) :
  forallb (fun line => negb (is_entry line)) ls = true ->
  read_lines ls acc = Ok acc /\
  (forall (E : Type) (env : E) (pos : bool),
     Bot.load_config (Lines ls) env pos = ([], pos, Ok ∅) /\
     TradingBot.load_env (Lines ls) env pos = ([], pos, Ok ∅)).
Proof.
  intros Hall.
  assert (Hskip : forall a, read_lines ls a = Ok a).
  { induction ls as [|l ls IH]; intros a; simpl; [reflexivity|].
    simpl in Hall. apply andb_true_iff in Hall as [Hl Hrest].
    unfold is_entry in Hl. apply negb_true_iff in Hl. rewrite Hl.
    apply IH, Hrest. }
  split; [apply Hskip|]. intros E env pos.
  unfold Bot.load_config, TradingBot.load_env, lift. rewrite Hskip. auto.
Qed.

(** X4. A later assignment wins: a line [key=value] added at the end of the
    file binds [key] to [value] whatever came before, and leaves the other
    keys as they were. *)
Theorem last_assignment_wins (ls : list string) (line key val : string)
    (acc m : gmap string string) :
  read_lines ls acc = Ok m ->
  is_entry line = true ->
  split_eq (strip line) = Some (key, val) ->
  exists m',
    read_lines (ls ++ [line]) acc = Ok m' /\
    m' !! key = Some val /\
    (forall k, k <> key -> m' !! k = m !! k).
Proof.
  intros Hm He Hs. exists (<[key := val]> m).
  rewrite read_lines_app, Hm. simpl.
  unfold is_entry in He. rewrite He, Hs.
  split; [reflexivity|]. split.
  - apply lookup_insert_eq.
  - intros k Hk. apply lookup_insert_ne. congruence.
Qed.

End DotEnv.

(** ** Start-up: configuration, command line, balance *)
Section StartUp.
Context {B : Builtins}.

(** X5. The built-in table of [bot.py] is used only when [.env] is absent:
    with a file that reads without error but binds no API key or no API
    secret, [bot.py] stops with a [KeyError] before it logs or requests
    anything. *)
Theorem env_file_replaces_defaults (ls : list string)
    (config : gmap string string) (s : session) (pos : bool) :
  read_lines ls ∅ = Ok config ->
  config !! "BINANCE_API_KEY" = None \/ config !! "BINANCE_API_SECRET" = None ->
  Bot.main (Lines ls) s pos = ([], pos, Raise (Exception "KeyError")).
Proof.
  intros Hread Hmiss.
  unfold Bot.main, Bot.load_config, Bot.make_client, item, bind, lift, ret.
  rewrite Hread.
  destruct Hmiss as [Hk | Hs].
  - rewrite Hk. reflexivity.
  - rewrite Hs. destruct (config !! "BINANCE_API_KEY"); reflexivity.
Qed.

(** X6. The defaults of [--buy], [--sell] and [--qty] are converted from
    the [.env] values when the parser is built: a value there that is not
    a number raises whatever the command line says, also when the command
    line gives that option. *)
Theorem bad_env_number_beats_cli (env : gmap string string)
    (cli : TradingBot.argv) (E : Type) (e0 : E) (pos : bool) (e : exn) :
  (py_float (get env "BUY_THRESHOLD" "60000") = Raise e ->
   TradingBot.parse_args env cli e0 pos = ([], pos, Raise e)) /\
  (forall b, py_float (get env "BUY_THRESHOLD" "60000") = Ok b ->
   py_float (get env "SELL_THRESHOLD" "68000") = Raise e ->
   TradingBot.parse_args env cli e0 pos = ([], pos, Raise e)) /\
  (forall b s, py_float (get env "BUY_THRESHOLD" "60000") = Ok b ->
   py_float (get env "SELL_THRESHOLD" "68000") = Ok s ->
   py_float (get env "TRADE_QUANTITY" "0.001") = Raise e ->
   TradingBot.parse_args env cli e0 pos = ([], pos, Raise e)).
Proof.
  unfold TradingBot.parse_args, bind, lift.
  split; [|split].
  - intros ->. reflexivity.
  - intros b -> ->. reflexivity.
  - intros b s -> -> ->. reflexivity.
Qed.

(** X7. The command line can switch the test network on, never off: the
    parsed [testnet] is false only when [--testnet] is absent and [.env]
    binds [USE_TESTNET] to something other than a spelling of [true]. *)
Theorem testnet_off_only_by_env (env : gmap string string)
    (cli : TradingBot.argv) (E : Type) (e0 : E) (pos : bool)
    (a : TradingBot.args) :
  value (TradingBot.parse_args env cli e0 pos) = Ok a ->
  (TradingBot.opt_testnet cli = true -> TradingBot.arg_testnet a = true) /\
  (env !! "USE_TESTNET" = None -> TradingBot.arg_testnet a = true) /\
  (TradingBot.arg_testnet a = false ->
   TradingBot.opt_testnet cli = false /\
   exists v, env !! "USE_TESTNET" = Some v /\ lower v <> "true").
Proof.
  unfold TradingBot.parse_args, TradingBot.float_option, bind, lift, ret, value.
  intros Ha.
  assert (Ht : TradingBot.arg_testnet a
               = TradingBot.opt_testnet cli
                 || String.eqb (lower (get env "USE_TESTNET" "True")) "true").
  { revert Ha. answers; simpl; intros [= <-]; reflexivity. }
  clear Ha. rewrite Ht. unfold get. repeat split.
  - intros ->. reflexivity.
  - intros ->. apply orb_true_r.
  - apply orb_false_iff in H as [H _]. exact H.
  - apply orb_false_iff in H as [_ H].
    destruct (env !! "USE_TESTNET") as [v|]; [|discriminate].
    exists v. split; [reflexivity|]. intros Hv. rewrite Hv in H. discriminate.
Qed.


(** X9. A number given on the command line that does not convert makes
    argparse exit: [trading_bot.py] stops with [SystemExit] before the bot
    is built, having sent nothing to the exchange. *)
Theorem bad_cli_number_exits (f : dotenv) (cli : TradingBot.argv)
    (s : session) (pos : bool) (env : gmap string string)
    (b sl q : float) (x : string) (e : exn) :
  value (TradingBot.load_env f s pos) = Ok env ->
  py_float (get env "BUY_THRESHOLD" "60000") = Ok b ->
  py_float (get env "SELL_THRESHOLD" "68000") = Ok sl ->
  py_float (get env "TRADE_QUANTITY" "0.001") = Ok q ->
  TradingBot.opt_buy cli = Some x ->
  py_float x = Raise e ->
  value (TradingBot.main f cli s pos) = Raise SystemExit /\
  calls (trace (TradingBot.main f cli s pos)) = 0 /\
  flag (TradingBot.main f cli s pos) = pos.
Proof.
  intros Henv Hb Hs Hq Hx He.
  unfold TradingBot.main, TradingBot.parse_args, TradingBot.float_option,
    bind, lift, ret in *.
  destruct f as [|ls]; unfold TradingBot.load_env, logging, emit, lift, ret in *;
    simpl in *.
  - injection Henv as <-. rewrite Hb, Hs, Hq, Hx, He. simpl. auto.
  - destruct (read_lines ls ∅) as [m|]; [|discriminate].
    simpl in Henv. injection Henv as <-.
    rewrite Hb, Hs, Hq, Hx, He. simpl. auto.
Qed.

(** X10. [get_balance] never lets an [Exception] out and never touches the
    flag: when the account query fails, or a [free] field is not a number,
    it logs one error and returns the empty mapping. *)
Theorem get_balance_swallows_errors (w : world) (pos : bool) :
  flag (TradingBot.get_balance w pos) = pos /\
  (forall n, value (TradingBot.get_balance w pos) <> Raise (Exception n)) /\
  (forall n, account w = Raise (Exception n) ->
     TradingBot.get_balance w pos
     = ([Call GetAccount;
         Log ERROR (F "Failed to fetch account balance: {}" [AExn (Exception n)])],
        pos, Ok ∅)) /\
  (forall bs n, account w = Ok bs -> free_amounts bs ∅ = Raise (Exception n) ->
     TradingBot.get_balance w pos
     = ([Call GetAccount;
         Log ERROR (F "Failed to fetch account balance: {}" [AExn (Exception n)])],
        pos, Ok ∅)).
Proof.
  unfold TradingBot.get_balance, try_, bind, call, lift, logging, emit, ret,
    except_Exception, flag, value.
  repeat split.
  - destruct (account w) as [bs|[]]; simpl; try reflexivity.
    destruct (free_amounts bs ∅) as [m|[]]; reflexivity.
  - intros n. destruct (account w) as [bs|[]]; simpl; try discriminate.
    destruct (free_amounts bs ∅) as [m|[]]; simpl; discriminate.
  - intros n ->. reflexivity.
  - intros bs n -> Hf. simpl. rewrite Hf. reflexivity.
Qed.

(** X11. In [bot.py] the balance query of the start-up is outside every
    [try]: when it raises, [run_bot] raises the same exception after its
    two opening records, with no round begun and the flag untouched. In
    [trading_bot.py] the same failure is absorbed: [run] writes its two
    opening records, the error record of [get_balance] and an empty
    balance, then runs the loop, whose events, flag and result are those
    of a run whose query answered (only the balance record differs). *)
Theorem balance_failure_aborts_run_bot (config : gmap string string)
    (cl : client) (c : settings) (ui : bool) (s : session) (pos : bool)
    (n : string) :
  account (start s) = Raise (Exception n) ->
  Bot.run_bot config cl s pos
  = ([Log INFO (F "=== Starting Trading Bot ===" []);
      Log INFO (F "Mode: {}" [AStr (if testnet cl then "TESTNET" else "LIVE")]);
      Call GetAccount],
     pos, Raise (Exception n)) /\
  fetches (trace (TradingBot.run c ui s pos))
  = fetches (trace (TradingBot.trading_loop c ui s pos)) /\
  value (TradingBot.run c ui s pos)
  = value (TradingBot.trading_loop c ui s pos) /\
  TradingBot.run c ui s pos
  = ([Log INFO (F "=== Trading Bot Started ===" []);
      Log INFO (F "Symbol: {}, Buy below: {}, Sell above: {}"
                  [AStr (symbol c); AFloat (buy_price c); AFloat (sell_price c)]);
      Call GetAccount;
      Log ERROR (F "Failed to fetch account balance: {}" [AExn (Exception n)]);
      Log INFO (F "Balance: {}" [ABalance ∅])]
     ++ trace (TradingBot.trading_loop c ui s pos),
     flag (TradingBot.trading_loop c ui s pos),
     value (TradingBot.trading_loop c ui s pos)) /\
  orders (trace (TradingBot.run c ui s pos))
  = orders (trace (TradingBot.trading_loop c ui s pos)) /\
  submissions (trace (TradingBot.run c ui s pos))
  = submissions (trace (TradingBot.trading_loop c ui s pos)) /\
  flag (TradingBot.run c ui s pos) = flag (TradingBot.trading_loop c ui s pos) /\
  (forall (s' : session) (bs : list balance) (m : gmap string float),
     rounds s' = rounds s ->
     account (start s') = Ok bs -> free_amounts bs ∅ = Ok m ->
     TradingBot.run c ui s' pos
     = ([Log INFO (F "=== Trading Bot Started ===" []);
         Log INFO (F "Symbol: {}, Buy below: {}, Sell above: {}"
                     [AStr (symbol c); AFloat (buy_price c); AFloat (sell_price c)]);
         Call GetAccount;
         Log INFO (F "Balance: {}" [ABalance m])]
        ++ trace (TradingBot.trading_loop c ui s pos),
        flag (TradingBot.trading_loop c ui s pos),
        value (TradingBot.trading_loop c ui s pos))).
Proof.
  intros Hacc.
  assert (Hrun : TradingBot.run c ui s pos
    = ([Log INFO (F "=== Trading Bot Started ===" []);
        Log INFO (F "Symbol: {}, Buy below: {}, Sell above: {}"
                    [AStr (symbol c); AFloat (buy_price c); AFloat (sell_price c)]);
        Call GetAccount;
        Log ERROR (F "Failed to fetch account balance: {}" [AExn (Exception n)]);
        Log INFO (F "Balance: {}" [ABalance ∅])]
       ++ trace (TradingBot.trading_loop c ui s pos),
       flag (TradingBot.trading_loop c ui s pos),
       value (TradingBot.trading_loop c ui s pos))).
  { unfold TradingBot.run, TradingBot.get_balance, within, try_, bind, call,
      lift, logging, emit, ret, except_Exception.
    rewrite Hacc. simpl.
    destruct (TradingBot.trading_loop c ui s pos) as [[t p] r]. reflexivity. }
  split.
  { unfold Bot.run_bot, Bot.get_account_balance, within, bind, call, lift,
      logging, emit, ret.
    rewrite Hacc. reflexivity. }
  rewrite Hrun. unfold fetches, submissions.
  repeat split; try reflexivity.
  intros s' bs m Hr Ha Hm.
  assert (Hloop : TradingBot.trading_loop c ui s' pos
                  = TradingBot.trading_loop c ui s pos).
  { unfold TradingBot.trading_loop, try_, within. cbv beta. rewrite Hr.
    destruct (while_true (TradingBot.body c ui) (rounds s) pos)
      as [[t p] [a|[]]]; reflexivity. }
  unfold TradingBot.run, TradingBot.get_balance, within, try_, bind, call,
    lift, logging, emit, ret, except_Exception.
  rewrite Ha. simpl. rewrite Hm. simpl.
  fold (TradingBot.trading_loop c ui s' pos). rewrite Hloop.
  destruct (TradingBot.trading_loop c ui s pos) as [[t p] r]. reflexivity.
Qed.

End StartUp.

(** ** The loops over many rounds *)
Section Loops.
Context {B : Builtins}.

Lemma while_true_cons (body : M world flow) (w : world) (ws : list world)
    (pos : bool) :
  while_true body (w :: ws) pos
  = match body w pos with
    | (t, pos1, Ok Continue) =>
        (t ++ trace (while_true body ws pos1),
         flag (while_true body ws pos1), value (while_true body ws pos1))
    | (t, pos1, Ok Break) => (t, pos1, Ok Finished)
    | (t, pos1, Raise e) => (t, pos1, Raise e)
    end.
Proof.
  simpl. destruct (body w pos) as [[t p1] [[]|e]]; try reflexivity.
  destruct (while_true body ws p1) as [[t' p2] r]. reflexivity.
Qed.

Lemma count_app (p : event -> bool) (t1 t2 : list event) :
  length (List.filter p (t1 ++ t2))
  = length (List.filter p t1) + length (List.filter p t2).
Proof. rewrite List.filter_app, length_app. reflexivity. Qed.

(** A bound between two counts that holds in every round holds in the loop. *)
Lemma loop_le (body : M world flow) (p q : event -> bool) :
  (forall w pos, length (List.filter p (trace (body w pos)))
                 <= length (List.filter q (trace (body w pos)))) ->
  forall ws pos,
    length (List.filter p (trace (while_true body ws pos)))
    <= length (List.filter q (trace (while_true body ws pos))).
Proof.
  intros Hround. induction ws as [|w ws IH]; intros pos; [simpl; lia|].
  rewrite while_true_cons. specialize (Hround w pos).
  destruct (body w pos) as [[t p1] [[]|e]]; unfold trace in *; simpl in *;
    try exact Hround.
  rewrite !count_app. specialize (IH p1). unfold trace in IH. lia.
Qed.

(** A count bounded by [k] in every round is bounded by [k] per round. *)
Lemma loop_bound (body : M world flow) (p : event -> bool) (k : nat) :
  (forall w pos, length (List.filter p (trace (body w pos))) <= k) ->
  forall ws pos,
    length (List.filter p (trace (while_true body ws pos))) <= k * length ws.
Proof.
  intros Hround. induction ws as [|w ws IH]; intros pos; [simpl; lia|].
  rewrite while_true_cons. specialize (Hround w pos).
  destruct (body w pos) as [[t p1] [[]|e]]; unfold trace in *; simpl in *;
    try nia.
  rewrite count_app. specialize (IH p1). unfold trace in IH. nia.
Qed.

Lemma orders_app (t1 t2 : list event) :
  orders (t1 ++ t2) = orders t1 ++ orders t2.
Proof.
  induction t1 as [|e t1 IH]; simpl; [reflexivity|].
  destruct (order_side e); simpl; rewrite IH; reflexivity.
Qed.

(** What every round of either program does, whatever it is answered. *)
Lemma round_counts (c : settings) (ui : bool) (w : world) (pos : bool) :
  (let t := trace ((Bot.iteration c ;; ret Continue) w pos) in
   fetches t = 1 /\ submissions t <= 1 /\ sleeps t <= 1 /\
   records CRITICAL t = 0) /\
  (let t := trace (TradingBot.body c ui w pos) in
   fetches t = 1 /\ submissions t <= 1 /\ sleeps t <= 1 /\
   records ERROR t <= 2 /\ records CRITICAL t = 0 /\ records WARNING t = 0).
Proof.
  split; cbv zeta; destruct ui; repeat split; open_round; answers;
    unfold sleeps; observe; lia.
Qed.

(** The body of [BasicBot.run] lets neither an [Exception] nor a
    [KeyboardInterrupt] out. *)
Lemma body_catches (c : settings) (ui : bool) (w : world) (pos : bool) :
  value (TradingBot.body c ui w pos) <> Raise KeyboardInterrupt /\
  forall n, value (TradingBot.body c ui w pos) <> Raise (Exception n).
Proof.
  split; [|intros n]; destruct ui; open_round; answers; observe; discriminate.
Qed.

Lemma loop_catches (c : settings) (ui : bool) (ws : list world) :
  forall pos n,
    value (while_true (TradingBot.body c ui) ws pos) <> Raise (Exception n).
Proof.
  induction ws as [|w ws IH]; intros pos n; [discriminate|].
  rewrite while_true_cons.
  pose proof (proj2 (body_catches c ui w pos) n) as Hb.
  destruct (TradingBot.body c ui w pos) as [[t p1] [[]|e]];
    unfold value in *; simpl in *; try discriminate;
    [apply IH | intros [= ->]; apply Hb; reflexivity].
Qed.

(** X12. In every run of either loop, each order request belongs to a round
    that began with a price fetch, one request at most per round: there are
    never more requests than price fetches, nor more price fetches than
    rounds. *)
Theorem orders_bounded_by_rounds (c : settings) (ui : bool)
    (ws : list world) (pos : bool) :
  (let t := trace (while_true (Bot.iteration c ;; ret Continue) ws pos) in
   submissions t <= fetches t /\ fetches t <= length ws) /\
  (let t := trace (while_true (TradingBot.body c ui) ws pos) in
   submissions t <= fetches t /\ fetches t <= length ws).
Proof.
  cbv zeta. unfold submissions, fetches. repeat split.
  - apply loop_le. intros w p.
    pose proof (proj1 (round_counts c ui w p)) as H. cbv zeta in H.
    unfold submissions, fetches in H. lia.
  - rewrite <- (Nat.mul_1_l (length ws)). apply loop_bound. intros w p.
    pose proof (proj1 (round_counts c ui w p)) as H. cbv zeta in H.
    unfold fetches in H. lia.
  - apply loop_le. intros w p.
    pose proof (proj2 (round_counts c ui w p)) as H. cbv zeta in H.
    unfold submissions, fetches in H. lia.
  - rewrite <- (Nat.mul_1_l (length ws)). apply loop_bound. intros w p.
    pose proof (proj2 (round_counts c ui w p)) as H. cbv zeta in H.
    unfold fetches in H. lia.
Qed.

(** X13. [BasicBot.run] never reaches its outer handler: the inner [try]
    catches every [Exception], so the two nested [try] blocks behave as the
    bare loop, and no run writes a critical record or a warning record. *)
Theorem basic_bot_never_crashes (c : settings) (ui : bool) (s : session)
    (pos : bool) :
  TradingBot.trading_loop c ui s pos
  = while_true (TradingBot.body c ui) (rounds s) pos /\
  records CRITICAL (trace (TradingBot.trading_loop c ui s pos)) = 0 /\
  records WARNING (trace (TradingBot.trading_loop c ui s pos)) = 0.
Proof.
  assert (Heq : TradingBot.trading_loop c ui s pos
                = while_true (TradingBot.body c ui) (rounds s) pos).
  { unfold TradingBot.trading_loop, try_, within, except_Exception.
    pose proof (loop_catches c ui (rounds s) pos) as Hc.
    destruct (while_true (TradingBot.body c ui) (rounds s) pos)
      as [[t p] [v|[]]]; try reflexivity.
    exfalso. apply (Hc name). reflexivity. }
  rewrite Heq. split; [reflexivity|]. unfold records. split.
  - apply Nat.le_0_r. rewrite <- (Nat.mul_0_l (length (rounds s))).
    apply loop_bound. intros w p.
    pose proof (proj2 (round_counts c ui w p)) as H. cbv zeta in H.
    unfold records in H. lia.
  - apply Nat.le_0_r. rewrite <- (Nat.mul_0_l (length (rounds s))).
    apply loop_bound. intros w p.
    pose proof (proj2 (round_counts c ui w p)) as H. cbv zeta in H.
    unfold records in H. lia.
Qed.

End Loops.


(** ** Interrupts, the interactive mode, alerts and sleeps *)
Section Behaviour.
Context {B : Builtins}.


(** X15. An interactive round fetches the price once, sends at most one
    order request and never sleeps; when the price fetch fails the operator
    is not prompted. *)
Theorem interactive_round_shape (c : settings) (w : world) (pos : bool) :
  fetches (trace (TradingBot.body c true w pos)) = 1 /\
  submissions (trace (TradingBot.body c true w pos)) <= 1 /\
  sleeps (trace (TradingBot.body c true w pos)) = 0 /\
  (succeeded (ticker w) = false ->
   prompts (trace (TradingBot.body c true w pos)) = 0 /\
   submissions (trace (TradingBot.body c true w pos)) = 0).
Proof.
  split; [|split; [|split]];
    try (open_round; answers; unfold sleeps; observe; lia).
  intros Ht. destruct (ticker w) as [raw|e] eqn:Hw; [discriminate|].
  split; open_round; rewrite Hw; destruct e; reflexivity.
Qed.

(** X16. The manual commands look at neither the flag nor the thresholds:
    whatever the price and the flag, [b] sends one market buy, [s] one
    market sell, [q] sends nothing and leaves the loop, and a line that is
    no command sends nothing, writes nothing and goes on. The line is read
    with its surrounding white space removed and its capitals lowered. *)
Theorem manual_commands (c : settings) (w : world) (pos : bool)
    (raw line : string) (price : float) :
  ticker w = Ok raw -> py_float raw = Ok price ->
  nth_error (typed w) 0 = Some (Ok line) ->
  let o := TradingBot.body c true w pos in
  (lower (strip line) = "b" -> orders (trace o) = [BUY] /\ submissions (trace o) = 1) /\
  (lower (strip line) = "s" -> orders (trace o) = [SELL] /\ submissions (trace o) = 1) /\
  (lower (strip line) = "q" -> value o = Ok Break /\ submissions (trace o) = 0) /\
  (lower (strip line) <> "b" -> lower (strip line) <> "s" ->
   lower (strip line) <> "oco" -> lower (strip line) <> "stop" ->
   lower (strip line) <> "q" ->
   submissions (trace o) = 0 /\ records ERROR (trace o) = 0 /\
   prompts (trace o) = 1 /\ value o = Ok Continue).
Proof.
  intros Ht Hp Hl. cbv zeta.
  split; [|split; [|split]].
  - intros Hc. split; open_round; rewrite Ht; cbn -[nth_error]; rewrite Hp;
      cbn -[nth_error]; rewrite Hl; cbn -[nth_error]; rewrite Hc; simpl;
      answers; observe; reflexivity.
  - intros Hc. split; open_round; rewrite Ht; cbn -[nth_error]; rewrite Hp;
      cbn -[nth_error]; rewrite Hl; cbn -[nth_error]; rewrite Hc; simpl;
      answers; observe; reflexivity.
  - intros Hc. split; open_round; rewrite Ht; cbn -[nth_error]; rewrite Hp;
      cbn -[nth_error]; rewrite Hl; cbn -[nth_error]; rewrite Hc; simpl;
      reflexivity.
  - intros Hb Hs Ho Hst Hq.
    apply String.eqb_neq in Hb, Hs, Ho, Hst, Hq.
    repeat split; open_round; rewrite Ht; cbn -[nth_error]; rewrite Hp;
      cbn -[nth_error]; rewrite Hl; cbn -[nth_error];
      rewrite Hb, Hs, Ho, Hst, Hq; reflexivity.
Qed.

(** X17. The two conditional orders pass the typed prices in this order:
    [oco] sends one OCO order whose price is the take-profit price, with
    the stop and stop-limit prices as typed; [stop] sends one stop-limit
    order whose price is the limit price (typed second) and whose stop
    price is the one typed first. *)
Theorem conditional_orders (c : settings) (w : world) (pos : bool)
    (raw line : string) (price : float) :
  ticker w = Ok raw -> py_float raw = Ok price ->
  nth_error (typed w) 0 = Some (Ok line) ->
  let o := TradingBot.body c true w pos in
  (forall s1 s2 s3 tp sp slp,
     lower (strip line) = "oco" ->
     nth_error (typed w) 1 = Some (Ok s1) -> py_float s1 = Ok tp ->
     nth_error (typed w) 2 = Some (Ok s2) -> py_float s2 = Ok sp ->
     nth_error (typed w) 3 = Some (Ok s3) -> py_float s3 = Ok slp ->
     In (Call (CreateOcoOrder (symbol c) (quantity c) tp sp slp)) (trace o) /\
     submissions (trace o) = 1 /\ orders (trace o) = [] /\
     flag o = pos) /\
  (forall s1 s2 sp lp,
     lower (strip line) = "stop" ->
     nth_error (typed w) 1 = Some (Ok s1) -> py_float s1 = Ok sp ->
     nth_error (typed w) 2 = Some (Ok s2) -> py_float s2 = Ok lp ->
     In (Call (CreateOrder (symbol c) (quantity c) lp sp)) (trace o) /\
     submissions (trace o) = 1 /\ orders (trace o) = [] /\
     flag o = pos).
Proof.
  intros Ht Hp Hl. cbv zeta. split.
  - intros s1 s2 s3 tp sp slp Hc H1 P1 H2 P2 H3 P3.
    repeat split; open_round; rewrite Ht; cbn -[nth_error In]; rewrite Hp;
      cbn -[nth_error In]; rewrite Hl; cbn -[nth_error In]; rewrite Hc;
      cbn -[nth_error In]; rewrite H1; cbn -[nth_error In]; rewrite P1;
      cbn -[nth_error In]; rewrite H2; cbn -[nth_error In]; rewrite P2;
      cbn -[nth_error In]; rewrite H3; cbn -[nth_error In]; rewrite P3;
      cbn -[nth_error In]; answers; observe; try reflexivity; simpl; auto 10.
  - intros s1 s2 sp lp Hc H1 P1 H2 P2.
    repeat split; open_round; rewrite Ht; cbn -[nth_error In]; rewrite Hp;
      cbn -[nth_error In]; rewrite Hl; cbn -[nth_error In]; rewrite Hc;
      cbn -[nth_error In]; rewrite H1; cbn -[nth_error In]; rewrite P1;
      cbn -[nth_error In]; rewrite H2; cbn -[nth_error In]; rewrite P2;
      cbn -[nth_error In]; answers; observe; try reflexivity; simpl; auto 10.
Qed.

(** X18. A price typed for [oco] or [stop] that is not a number places no
    order: the [ValueError] of the first bad price is logged as one error
    record and the loop goes on. *)
Theorem bad_price_places_no_order (c : settings) (w : world) (pos : bool)
    (raw line : string) (price : float) (n : string) :
  ticker w = Ok raw -> py_float raw = Ok price ->
  nth_error (typed w) 0 = Some (Ok line) ->
  lower (strip line) = "oco" \/ lower (strip line) = "stop" ->
  (exists s1, nth_error (typed w) 1 = Some (Ok s1) /\
              py_float s1 = Raise (Exception n)) \/
  (exists s1 x1 s2, nth_error (typed w) 1 = Some (Ok s1) /\ py_float s1 = Ok x1 /\
                    nth_error (typed w) 2 = Some (Ok s2) /\
                    py_float s2 = Raise (Exception n)) ->
  let o := TradingBot.body c true w pos in
  submissions (trace o) = 0 /\ records ERROR (trace o) = 1 /\
  flag o = pos /\ value o = Ok Continue.
Proof.
  intros Ht Hp Hl Hc Hbad. cbv zeta.
  destruct Hc as [Hc | Hc];
    (destruct Hbad as [(s1 & H1 & P1) | (s1 & x1 & s2 & H1 & P1 & H2 & P2)];
     repeat split; open_round; rewrite Ht; cbn -[nth_error]; rewrite Hp;
     cbn -[nth_error]; rewrite Hl; cbn -[nth_error]; rewrite Hc;
     cbn -[nth_error]; rewrite H1; cbn -[nth_error]; rewrite P1;
     cbn -[nth_error]; try (rewrite H2; cbn -[nth_error]; rewrite P2;
                            cbn -[nth_error]); reflexivity).
Qed.

(** From a false flag, a round requests nothing and keeps the flag, or
    requests one buy. *)
Lemma round_first (c : settings) (w : world) :
  ((orders (trace ((Bot.iteration c ;; ret Continue) w false)) = [] /\
    flag ((Bot.iteration c ;; ret Continue) w false) = false) \/
   orders (trace ((Bot.iteration c ;; ret Continue) w false)) = [BUY]) /\
  ((orders (trace (TradingBot.body c false w false)) = [] /\
    flag (TradingBot.body c false w false) = false) \/
   orders (trace (TradingBot.body c false w false)) = [BUY]).
Proof.
  split; open_round; answers; observe; auto; simpl in *; discriminate.
Qed.

Lemma first_buy_loop (body : M world flow) :
  (forall w, (orders (trace (body w false)) = [] /\ flag (body w false) = false) \/
             orders (trace (body w false)) = [BUY]) ->
  forall ws,
    orders (trace (while_true body ws false)) = [] \/
    exists l, orders (trace (while_true body ws false)) = BUY :: l.
Proof.
  intros Hround. induction ws as [|w ws IH]; [left; reflexivity|].
  rewrite while_true_cons.
  destruct (Hround w) as [[Ho Hf] | Ho];
    destruct (body w false) as [[t p] [[]|e]];
    unfold trace, flag in *; simpl in *;
    rewrite ?orders_app, ?Ho; simpl; eauto.
  subst p. exact IH.
Qed.

(** X19. Started with the flag false, neither automatic loop ever sells
    before it has requested a buy: over any number of rounds the market
    orders requested are none, or begin with a buy. *)
Theorem first_order_is_a_buy (c : settings) (ws : list world) :
  (orders (trace (while_true (Bot.iteration c ;; ret Continue) ws false)) = [] \/
   exists l, orders (trace (while_true (Bot.iteration c ;; ret Continue) ws false))
             = BUY :: l) /\
  (orders (trace (while_true (TradingBot.body c false) ws false)) = [] \/
   exists l, orders (trace (while_true (TradingBot.body c false) ws false))
             = BUY :: l).
Proof.
  split; apply first_buy_loop; intros w; apply (round_first c w).
Qed.

(** X20. In [bot.py] every order the exchange answers, accepted or
    refused, is announced by exactly one alert: the warning records of a
    round are as many as its order requests. *)
Theorem one_alert_per_order (c : settings) (w : world) (pos : bool) :
  succeeded (order_reply w) = true \/
  (exists n, order_reply w = Raise (Exception n)) ->
  records WARNING (trace (Bot.iteration c w pos))
  = submissions (trace (Bot.iteration c w pos)).
Proof.
  intros [Hok | [n Hn]].
  - destruct (order_reply w) as [o|e] eqn:Ho; [|discriminate].
    open_round; answers; observe; try reflexivity; congruence.
  - open_round; answers; observe; try reflexivity; congruence.
Qed.

(** X21. [BasicBot.run] retries a failed price fetch at once: a round whose
    price fetch raises an [Exception] does not sleep, so that rounds which
    all fail so make as many fetches and error records as there are rounds,
    with no sleep between them and the loop still running. *)
Theorem failed_fetch_is_retried_at_once (c : settings) (ui : bool)
    (ws : list world) (pos : bool) :
  Forall (fun w => exists n, ticker w = Raise (Exception n)) ws ->
  let o := while_true (TradingBot.body c ui) ws pos in
  sleeps (trace o) = 0 /\ fetches (trace o) = length ws /\
  records ERROR (trace o) = length ws /\ flag o = pos /\ value o = Ok Running.
Proof.
  intros Hall. cbv zeta. induction Hall as [|w ws [n Hw] _ IH];
    [repeat split; reflexivity|].
  rewrite while_true_cons.
  assert (Hb : TradingBot.body c ui w pos
               = ([Call (GetSymbolTicker (symbol c));
                   Log ERROR (F "Error in main loop: {}" [AExn (Exception n)])],
                  pos, Ok Continue))
    by (open_round; rewrite Hw; reflexivity).
  rewrite Hb. destruct IH as (Hs & Hf & He & Hp & Hv).
  unfold sleeps, fetches, records in *. cbn [trace flag value fst snd].
  rewrite !count_app. rewrite Hs, Hf, He. simpl. auto.
Qed.

(** X22. A round of [run_bot] that ends without raising has slept exactly
    once, for three seconds, as its last action, after a refused order as
    after an accepted one or none; a round that raises has not slept
    unless the sleep itself was interrupted. *)
Theorem completed_round_sleeps (c : settings) (w : world) (pos : bool) :
  sleeps (trace (Bot.iteration c w pos)) <= 1 /\
  (value (Bot.iteration c w pos) = Ok tt ->
   exists t, trace (Bot.iteration c w pos) = t ++ [Sleep 3] /\ sleeps t = 0) /\
  (sleeps (trace (Bot.iteration c w pos)) = 1 ->
   value (Bot.iteration c w pos) = nap w).
Proof.
  split; [|split].
  - open_round; answers; unfold sleeps; observe; lia.
  - open_round; answers; observe; intros Hv; try discriminate;
      match goal with
      | |- exists t, ?l = _ /\ _ =>
          exists (removelast l); split; reflexivity
      end.
  - open_round; answers; unfold sleeps; observe; intros Hs;
      try discriminate; try reflexivity; congruence.
Qed.

End Behaviour.

(** ** The balances of an account that lists each asset once *)
Section Balances.
Context {B : Builtins}.

Lemma free_amounts_other (bs : list balance) :
  forall (acc m : gmap string float) (a : string),
  free_amounts bs acc = Ok m ->
  a ∉ map asset bs ->
  m !! a = acc !! a.
Proof.
  induction bs as [|b bs IH]; intros acc m a; simpl.
  - intros [= <-] _. reflexivity.
  - destruct (py_float (free b)) as [x|e]; [|discriminate].
    intros Hm Hnot. apply not_elem_of_cons in Hnot as [Hne Hnot].
    destruct (0 <? x)%float.
    + rewrite (IH _ _ _ Hm Hnot). apply lookup_insert_ne. congruence.
    + apply (IH _ _ _ Hm Hnot).
Qed.

Lemma free_amounts_distinct (bs : list balance) :
  forall (acc m : gmap string float),
  free_amounts bs acc = Ok m ->
  NoDup (map asset bs) ->
  forall b x, b ∈ bs -> py_float (free b) = Ok x ->
    m !! asset b = if (0 <? x)%float then Some x else acc !! asset b.
Proof.
  induction bs as [|b0 bs IH]; intros acc m Hf Hnd b x Hb Hx.
  - apply elem_of_nil in Hb. destruct Hb.
  - simpl in Hf, Hnd. apply NoDup_cons in Hnd as [Hfresh Hnd].
    destruct (py_float (free b0)) as [x0|e0] eqn:Hx0; [|discriminate].
    apply elem_of_cons in Hb as [-> | Hb].
    + rewrite Hx0 in Hx. injection Hx as ->.
      destruct (0 <? x)%float;
        rewrite (free_amounts_other _ _ _ _ Hf Hfresh); [|reflexivity].
      apply lookup_insert_eq.
    + assert (Hne : asset b0 <> asset b).
      { intros Heq. apply Hfresh. rewrite Heq.
        apply list_elem_of_fmap. exists b. auto. }
      destruct (0 <? x0)%float.
      * rewrite (IH _ _ Hf Hnd b x Hb Hx).
        destruct (0 <? x)%float; [reflexivity|].
        apply lookup_insert_ne. exact Hne.
      * apply (IH _ _ Hf Hnd b x Hb Hx).
Qed.

(** X23. When the account lists each asset once, the mapping returned by
    the balance query gives every asset with a positive free amount exactly
    that amount, and nothing for an asset whose free amount is not
    positive. *)
Theorem balances_of_distinct_assets (w : world) (pos : bool)
    (bs : list balance) (m : gmap string float) :
  account w = Ok bs ->
  NoDup (map asset bs) ->
  value (Bot.get_account_balance w pos) = Ok m ->
  value (TradingBot.get_balance w pos) = Ok m /\
  forall b x, b ∈ bs -> py_float (free b) = Ok x ->
    m !! asset b = if (0 <? x)%float then Some x else None.
Proof.
  intros Hacc Hnd Hm.
  unfold Bot.get_account_balance, TradingBot.get_balance, try_, bind, call,
    lift, value in *.
  rewrite Hacc in *. simpl in *.
  destruct (free_amounts bs ∅) as [m0|e] eqn:Hf; simpl in Hm; [|discriminate].
  injection Hm as ->. split; [reflexivity|].
  intros b x Hb Hx. rewrite (free_amounts_distinct bs ∅ m Hf Hnd b x Hb Hx).
  destruct (0 <? x)%float; [reflexivity | apply lookup_empty].
Qed.

End Balances.


(** ** What a line of [.env] binds *)
Section Entries.

Lemma last_space_append (k : string) (a : ascii) (v : string) :
  last_space (String.append k (String a v)) = last_space (String a v).
Proof.
  induction k as [|b k IH]; [reflexivity|].
  change (String.append (String b k) (String a v))
    with (String b (String.append k (String a v))).
  destruct (String.append k (String a v)) as [|c r] eqn:Hk.
  - destruct k; discriminate.
  - rewrite <- IH. reflexivity.
Qed.

(** X1. A line that passes the entry test and whose stripped text is
    [k=v], with no ['='] in [k], binds exactly [k] to [v]: the white space
    around the line is dropped, so that [k] does not begin and [v] does not
    end with white space, while white space next to the ['='] stays in the
    key and in the value, and any further ['='] stays in the value. *)
Theorem entry_binds_key_to_value (line k v : string) (acc : gmap string string) :
  is_entry line = true ->
  strip line = String.append k (String "="%char v) ->
  contains_eq k = false ->
  read_lines [line] acc = Ok (<[k := v]> acc) /\
  head_space k = false /\ last_space v = false.
Proof.
  intros He Hs Hk.
  destruct (strip_is_stripped line) as (Hh & Hl & _).
  rewrite Hs in Hh, Hl. split; [|split].
  - simpl. unfold is_entry in He. rewrite He.
    rewrite (proj2 (split_eq_Some (strip line) k v) (conj Hs Hk)). reflexivity.
  - destruct k; [reflexivity | exact Hh].
  - rewrite last_space_append in Hl. destruct v; [reflexivity | exact Hl].
Qed.

End Entries.


(** ** The further properties at sample inputs *)

(** [KEY = v=1], indented: the key keeps the space before the ['=']. *)
Lemma entry_binds_key_to_value_witness :
  is_entry "  KEY = v=1  " = true /\
  strip "  KEY = v=1  " = String.append "KEY " (String "="%char " v=1") /\
  contains_eq "KEY " = false /\
  read_lines ["  KEY = v=1  "] ∅ = Ok (<["KEY " := " v=1"]> ∅).
Proof.
  split; [reflexivity|]. split; [reflexivity|]. split; [reflexivity|].
  exact (proj1 (entry_binds_key_to_value "  KEY = v=1  " "KEY " " v=1" ∅
                  eq_refl eq_refl eq_refl)).
Defined.

(** A file whose second line is a bare word. *)
Lemma malformed_line_raises_witness :
  existsb malformed ["SYMBOL=ETHUSDT"; "testnet"] = true /\
  Bot.load_config (Lines ["SYMBOL=ETHUSDT"; "testnet"]) tt false
  = ([], false, Raise (Exception "ValueError")).
Proof.
  split; [reflexivity|].
  exact (proj1 (proj2 (proj2
    (malformed_line_raises ["SYMBOL=ETHUSDT"; "testnet"] ∅)) unit tt false eq_refl)).
Defined.

(** A comment, a blank line and a line of spaces. *)
Lemma blank_and_comment_lines_skipped_witness :
  forallb (fun line => negb (is_entry line)) ["# keys"; ""; "   "] = true /\
  read_lines ["# keys"; ""; "   "] ∅ = Ok ∅.
Proof.
  split; [reflexivity|].
  exact (proj1 (blank_and_comment_lines_skipped ["# keys"; ""; "   "] ∅ eq_refl)).
Defined.

(** The symbol given twice. *)
Lemma last_assignment_wins_witness :
  read_lines ["SYMBOL=BTCUSDT"] ∅ = Ok (<["SYMBOL" := "BTCUSDT"]> ∅) /\
  is_entry "SYMBOL=ETHUSDT" = true /\
  split_eq (strip "SYMBOL=ETHUSDT") = Some ("SYMBOL", "ETHUSDT") /\
  exists m',
    read_lines (["SYMBOL=BTCUSDT"] ++ ["SYMBOL=ETHUSDT"]) ∅ = Ok m' /\
    m' !! "SYMBOL" = Some "ETHUSDT".
Proof.
  split; [reflexivity|]. split; [reflexivity|]. split; [reflexivity|].
  destruct (last_assignment_wins ["SYMBOL=BTCUSDT"] "SYMBOL=ETHUSDT"
              "SYMBOL" "ETHUSDT" ∅ (<["SYMBOL" := "BTCUSDT"]> ∅)
              eq_refl eq_refl eq_refl) as (m' & Hm & Hk & _).
  exists m'. split; assumption.
Defined.

(** A file that only names the symbol. *)
Lemma env_file_replaces_defaults_witness :
  read_lines ["SYMBOL=ETHUSDT"] ∅ = Ok (<["SYMBOL" := "ETHUSDT"]> ∅) /\
  (<["SYMBOL" := "ETHUSDT"]> ∅ : gmap string string) !! "BINANCE_API_KEY" = None /\
  Bot.main (B := float_table) (Lines ["SYMBOL=ETHUSDT"])
    {| start := offline; rounds := [] |} false
  = ([], false, Raise (Exception "KeyError")).
Proof.
  split; [reflexivity|].
  assert (Hk : (<["SYMBOL" := "ETHUSDT"]> ∅ : gmap string string)
               !! "BINANCE_API_KEY" = None) by (vm_compute; reflexivity).
  split; [exact Hk|].
  exact (env_file_replaces_defaults (B := float_table) ["SYMBOL=ETHUSDT"]
           (<["SYMBOL" := "ETHUSDT"]> ∅) {| start := offline; rounds := [] |}
           false eq_refl (or_introl Hk)).
Defined.

(** A buy threshold in [.env] that is no number, and [--buy 60000]. *)
Lemma bad_env_number_beats_cli_witness :
  py_float (Builtins := float_table)
    (get (<["BUY_THRESHOLD" := "sixty"]> ∅) "BUY_THRESHOLD" "60000")
  = Raise (Exception "ValueError") /\
  TradingBot.parse_args (B := float_table) (<["BUY_THRESHOLD" := "sixty"]> ∅)
    (options None (Some "60000")) tt false
  = ([], false, Raise (Exception "ValueError")).
Proof.
  assert (Hbad : py_float (Builtins := float_table)
            (get (<["BUY_THRESHOLD" := "sixty"]> ∅) "BUY_THRESHOLD" "60000")
          = Raise (Exception "ValueError")) by (vm_compute; reflexivity).
  split; [exact Hbad|].
  exact (proj1 (bad_env_number_beats_cli (B := float_table)
                  (<["BUY_THRESHOLD" := "sixty"]> ∅)
                  (options None (Some "60000")) unit tt false
                  (Exception "ValueError")) Hbad).
Defined.

(** No [.env], no [--testnet]: the test network all the same. *)
Lemma testnet_off_only_by_env_witness :
  exists a : TradingBot.args,
    value (TradingBot.parse_args (B := float_table) ∅ TradingBot.no_options tt false)
    = Ok a /\
    TradingBot.arg_testnet a = true.
Proof.
  eexists. split; [vm_compute; reflexivity|].
  refine (proj1 (proj2 (testnet_off_only_by_env (B := float_table) ∅
                          TradingBot.no_options unit tt false _ _)) _).
  - vm_compute. reflexivity.
  - apply lookup_empty.
Defined.


(** [--buy cheap] with no [.env]. *)
Lemma bad_cli_number_exits_witness :
  py_float (Builtins := float_table) "cheap" = Raise (Exception "ValueError") /\
  value (TradingBot.main (B := float_table) FileNotFound
           (options None (Some "cheap"))
           {| start := offline; rounds := [offline] |} false)
  = Raise SystemExit.
Proof.
  split; [reflexivity|].
  refine (proj1 (bad_cli_number_exits (B := float_table) FileNotFound
                   (options None (Some "cheap"))
                   {| start := offline; rounds := [offline] |} false ∅
                   60000 68000 0.001 "cheap" (Exception "ValueError")
                   eq_refl _ _ _ eq_refl eq_refl));
    vm_compute; reflexivity.
Defined.

(** The account query times out. *)
Lemma get_balance_swallows_errors_witness :
  account account_timeout = Raise (Exception "Timeout") /\
  value (TradingBot.get_balance (B := float_table) account_timeout true) = Ok ∅.
Proof.
  split; [reflexivity|].
  rewrite (proj1 (proj2 (proj2
    (get_balance_swallows_errors (B := float_table) account_timeout true)))
    "Timeout" eq_refl).
  reflexivity.
Defined.

(** The same time-out at the start of [run_bot]. *)
Lemma balance_failure_aborts_run_bot_witness :
  account (start {| start := account_timeout;
                    rounds := [quiet "59999.99" filled] |})
  = Raise (Exception "Timeout") /\
  value (Bot.run_bot (B := float_table) Bot.defaults
           {| api_key := "k"; api_secret := "s"; testnet := true |}
           {| start := account_timeout; rounds := [quiet "59999.99" filled] |}
           false)
  = Raise (Exception "Timeout").
Proof.
  split; [reflexivity|].
  rewrite (proj1 (balance_failure_aborts_run_bot (B := float_table) Bot.defaults
                    {| api_key := "k"; api_secret := "s"; testnet := true |}
                    default_settings false
                    {| start := account_timeout;
                       rounds := [quiet "59999.99" filled] |} false
                    "Timeout" eq_refl)).
  reflexivity.
Defined.


(** The price fetch fails in an interactive round. *)
Lemma interactive_round_shape_witness :
  succeeded (ticker offline) = false /\
  prompts (trace (TradingBot.body (B := float_table) default_settings true
                    offline false)) = 0.
Proof.
  split; [reflexivity|].
  exact (proj1 (proj2 (proj2 (proj2
    (interactive_round_shape (B := float_table) default_settings offline false)))
    eq_refl)).
Defined.

(** A manual sell while not in position, far below the sell threshold. *)
Lemma manual_commands_witness :
  ticker (typing "59999.99" [Ok " S "]) = Ok "59999.99" /\
  py_float (Builtins := float_table) "59999.99" = Ok 59999.99%float /\
  lower (strip " S ") = "s" /\
  orders (trace (TradingBot.body (B := float_table) default_settings true
                   (typing "59999.99" [Ok " S "]) false)) = [SELL].
Proof.
  split; [reflexivity|]. split; [reflexivity|]. split; [reflexivity|].
  exact (proj1 (proj1 (proj2
    (manual_commands (B := float_table) default_settings
       (typing "59999.99" [Ok " S "]) false
       "59999.99" " S " 59999.99%float eq_refl eq_refl eq_refl)) eq_refl)).
Defined.

(** [stop] with stop price 60000 and limit price 59999.99. *)
Lemma conditional_orders_witness :
  lower (strip "stop") = "stop" /\
  In (Call (CreateOrder "BTCUSDT" 0.001 59999.99 60000))
     (trace (TradingBot.body (B := float_table) default_settings true
               (typing "68000" [Ok "stop"; Ok "60000"; Ok "59999.99"]) true)).
Proof.
  split; [reflexivity|].
  exact (proj1 (proj2
    (conditional_orders (B := float_table) default_settings
       (typing "68000" [Ok "stop"; Ok "60000"; Ok "59999.99"]) true
       "68000" "stop" 68000%float eq_refl eq_refl eq_refl)
    "60000" "59999.99" 60000%float 59999.99%float
    eq_refl eq_refl eq_refl eq_refl eq_refl)).
Defined.

(** [oco] with a take-profit price that is no number. *)
Lemma bad_price_places_no_order_witness :
  py_float (Builtins := float_table) "high" = Raise (Exception "ValueError") /\
  submissions (trace (TradingBot.body (B := float_table) default_settings true
                        (typing "68000" [Ok "oco"; Ok "high"]) true)) = 0.
Proof.
  split; [reflexivity|].
  exact (proj1
    (bad_price_places_no_order (B := float_table) default_settings
       (typing "68000" [Ok "oco"; Ok "high"]) true
       "68000" "oco" 68000%float "ValueError" eq_refl eq_refl eq_refl
       (or_introl eq_refl)
       (or_introl (ex_intro _ "high" (conj eq_refl eq_refl))))).
Defined.

(** An accepted buy: one request, one alert. *)
Lemma one_alert_per_order_witness :
  succeeded (order_reply (quiet "59999.99" filled)) = true /\
  records WARNING (trace (Bot.iteration (B := float_table) default_settings
                            (quiet "59999.99" filled) false)) = 1.
Proof.
  split; [reflexivity|].
  rewrite (one_alert_per_order (B := float_table) default_settings
             (quiet "59999.99" filled) false (or_introl eq_refl)).
  reflexivity.
Defined.

(** Three rounds without network. *)
Lemma failed_fetch_is_retried_at_once_witness :
  Forall (fun w => exists n, ticker w = Raise (Exception n))
         [offline; offline; offline] /\
  sleeps (trace (while_true (TradingBot.body (B := float_table) default_settings false)
                   [offline; offline; offline] false)) = 0 /\
  fetches (trace (while_true (TradingBot.body (B := float_table) default_settings false)
                    [offline; offline; offline] false)) = 3.
Proof.
  assert (H : Forall (fun w => exists n, ticker w = Raise (Exception n))
                     [offline; offline; offline]).
  { repeat constructor; exists "ConnectionError"; reflexivity. }
  split; [exact H|].
  destruct (failed_fetch_is_retried_at_once (B := float_table) default_settings
              false [offline; offline; offline] false H) as (Hs & Hf & _).
  split; [exact Hs | exact Hf].
Defined.

(** A round with a refused order still ends with its sleep. *)
Lemma completed_round_sleeps_witness :
  value (Bot.iteration (B := float_table) default_settings
           (quiet "59999.99" rejected) false) = Ok tt /\
  exists t, trace (Bot.iteration (B := float_table) default_settings
                     (quiet "59999.99" rejected) false) = t ++ [Sleep 3] /\
            sleeps t = 0.
Proof.
  split; [reflexivity|].
  exact (proj1 (proj2
    (completed_round_sleeps (B := float_table) default_settings
       (quiet "59999.99" rejected) false)) eq_refl).
Defined.

(** One empty and one funded asset, each listed once. *)
Lemma balances_of_distinct_assets_witness :
  NoDup (map asset two_assets) /\
  exists m : gmap string float,
    value (Bot.get_account_balance (B := float_table) account_listed false)
    = Ok m /\
    m !! "USDT" = Some 1.5%float /\ m !! "BTC" = None.
Proof.
  assert (Hnd : NoDup (map asset two_assets)).
  { unfold two_assets. simpl. apply NoDup_cons. split.
    - intros H. apply list_elem_of_singleton in H. discriminate H.
    - apply NoDup_singleton. }
  split; [exact Hnd|].
  assert (Hm : value (Bot.get_account_balance (B := float_table)
                        account_listed false)
               = Ok (<["USDT" := 1.5%float]> ∅)) by (vm_compute; reflexivity).
  exists (<["USDT" := 1.5%float]> ∅). split; [exact Hm|].
  destruct (balances_of_distinct_assets (B := float_table)
              account_listed false two_assets _ eq_refl Hnd Hm) as [_ Hall].
  split.
  - apply (Hall {| asset := "USDT"; free := "1.50000000" |} 1.5%float);
      [|reflexivity].
    unfold two_assets. apply elem_of_cons. right.
    apply list_elem_of_singleton. reflexivity.
  - apply (Hall {| asset := "BTC"; free := "0.00000000" |} 0%float);
      [|reflexivity].
    unfold two_assets. apply elem_of_cons. left. reflexivity.
Defined.
